(** * pokerathome python-bot: game-state entities, event decoder, dispatcher

    A shallow embedding of [pokerathomebotlib] ([util.py], [state.py],
    [message.py], [net.py]) and the properties of it that the
    specification states.

    Python is dynamically typed: every constructor of the library receives
    arbitrary objects and validates them with [isinstance] assertions.  The
    embedding therefore works over one universe [value] of Python objects,
    and every operation that can raise returns a [result]. *)

From stdpp Require Import base option list gmap.
From Stdlib Require Import ZArith NArith String Ascii Bool Lia.

Set Warnings "-register-all".

Local Open Scope string_scope.
Local Open Scope Z_scope.

(** ** Exceptions and the error monad *)

Inductive exn : Type :=
| AssertionError
| AttributeError
| IndexError
| KeyError
| StopIteration
| TypeError
| ValueError
| ConnectionClosed.

Inductive result (A : Type) : Type :=
| OK (a : A)
| Raise (e : exn).

Arguments OK {A} a.
Arguments Raise {A} e.

Definition bind {A B : Type} (m : result A) (k : A -> result B) : result B :=
  match m with
  | OK a => k a
  | Raise e => Raise e
  end.

Notation "'do' x <- m ; k" := (bind m (fun x => k))
  (at level 10, x name, m at level 100, k at level 200,
   format "'[v' 'do'  x  <-  m ;  '/' k ']'").
Notation "'do_' m ; k" := (bind m (fun _ => k))
  (at level 10, m at level 100, k at level 200,
   format "'[v' 'do_'  m ;  '/' k ']'").

Definition succeeds {A : Type} (m : result A) : Prop := exists a, m = OK a.
Definition fails {A : Type} (m : result A) : Prop := exists e, m = Raise e.

(** [[f(x) for x in xs]]: the first exception ends the comprehension. *)
Fixpoint mapM {A B : Type} (f : A -> result B) (xs : list A) : result (list B) :=
  match xs with
  | [] => OK []
  | x :: xs' => do y <- f x; do ys <- mapM f xs'; OK (y :: ys)
  end.

(** [for x in xs: acc = body(acc, x)]: the first exception ends the loop. *)
Fixpoint for_each {A S : Type} (body : S -> A -> result S) (xs : list A) (s : S)
  : result S :=
  match xs with
  | [] => OK s
  | x :: xs' => do s' <- body s x; for_each body xs' s'
  end.

(** ** Python objects *)

(** [class Suit(Enum)] *)
Inductive Suit : Type := HEARTS | DIAMONDS | SPADES | CLUBS.

(** A [float]: what [json.loads] makes of a number with a fraction or an
    exponent, and of [NaN] and [Infinity]. *)
Inductive pyfloat : Type :=
| FFinite (m e : Z)          (* m * 2^e *)
| FInf (negative : bool)
| FNaN.

(** The objects this program handles: the values [json.loads] returns, the
    members of the two enumerations, and the instances of the library's
    classes with their attributes.  A [list] is the sequence of its items; a
    [dict] is the sequence of its (key, value) items in insertion order,
    the order in which Python iterates over it. *)
Inductive value : Type :=
| VNone
| VBool (b : bool)
| VInt (n : Z)
| VFloat (f : pyfloat)
| VStr (s : string)
| VList (xs : list value)
| VDict (items : list (value * value))
| VSuit (s : Suit)
| VActionType_TODO
| VPlayerId (_uuid : N)
| VCard (_suit : Suit)
| VPlayerGameState (_cards _folded _stack _bet _pot_share : value)
| VPot (_amount _player_shares : value)
| VSharedGameState (_pot_total _pots _board_cards _small_blind _big_blind : value)
| VGameState (_shared_state _player_states _dealer_player _small_blind_player
              _big_blind_player _active_player : value)
| VGameStateMessage (_action_type _game_state _action_requested : value).

(** The classes that appear as second argument of [isinstance]. *)
Inductive pytype : Type :=
| t_bool | t_int | t_str | t_list | t_dict
| t_Suit | t_ActionType | t_PlayerId | t_Card
| t_PlayerGameState | t_Pot | t_SharedGameState | t_GameState
| t_GameStateMessage.

(** [isinstance(v, t)].  [bool] is a subclass of [int]. *)
Definition isinstance (v : value) (t : pytype) : bool :=
  match t, v with
  | t_bool, VBool _ => true
  | t_int, VInt _ => true
  | t_int, VBool _ => true
  | t_str, VStr _ => true
  | t_list, VList _ => true
  | t_dict, VDict _ => true
  | t_Suit, VSuit _ => true
  | t_ActionType, VActionType_TODO => true
  | t_PlayerId, VPlayerId _ => true
  | t_Card, VCard _ => true
  | t_PlayerGameState, VPlayerGameState _ _ _ _ _ => true
  | t_Pot, VPot _ _ => true
  | t_SharedGameState, VSharedGameState _ _ _ _ _ => true
  | t_GameState, VGameState _ _ _ _ _ _ => true
  | t_GameStateMessage, VGameStateMessage _ _ _ => true
  | _, _ => false
  end.

Definition is_None (v : value) : bool :=
  match v with VNone => true | _ => false end.

(** Truth value of an object ([if x:], [assert x]). *)
Definition truthy (v : value) : bool :=
  match v with
  | VNone => false
  | VBool b => b
  | VInt n => negb (n =? 0)
  | VFloat (FFinite m _) => negb (m =? 0)
  | VFloat _ => true
  | VStr s => negb (String.eqb s "")
  | VList xs => match xs with [] => false | _ => true end
  | VDict items => match items with [] => false | _ => true end
  | _ => true
  end.

(** Comparison of a number with an [int] literal.  Python compares an
    [int] with a [float] exactly; [NaN] is unordered. *)
Definition cmp_int (v : value) (k : Z) : option (option comparison) :=
  match v with
  | VBool b => Some (Some (Z.b2z b ?= k))
  | VInt n => Some (Some (n ?= k))
  | VFloat (FFinite m e) =>
      Some (Some (if 0 <=? e then (m * 2 ^ e ?= k) else (m ?= k * 2 ^ (- e))))
  | VFloat (FInf negative) => Some (Some (if negative then Lt else Gt))
  | VFloat FNaN => Some None
  | _ => None
  end.

(** [v == k] for an [int] literal [k]: an object that is not a number is
    not equal to it. *)
Definition eq_int (v : value) (k : Z) : bool :=
  match cmp_int v k with
  | Some (Some Eq) => true
  | _ => false
  end.

(** [v > k] for an [int] literal [k]: [TypeError] when [v] is not a number. *)
Definition gt_int (v : value) (k : Z) : result bool :=
  match cmp_int v k with
  | Some (Some Gt) => OK true
  | Some _ => OK false
  | None => Raise TypeError
  end.

(** [v >= k] for an [int] literal [k]. *)
Definition ge_int (v : value) (k : Z) : result bool :=
  match cmp_int v k with
  | Some (Some Lt) => OK false
  | Some (Some _) => OK true
  | Some None => OK false
  | None => Raise TypeError
  end.

(** [v == s] for a [str] literal [s]: only a [str] can be equal to it. *)
Definition eq_str (v : value) (s : string) : bool :=
  match v with
  | VStr t => String.eqb t s
  | _ => false
  end.

(** [len(v)], on the kinds of container of this program. *)
Definition len (v : value) : result Z :=
  match v with
  | VStr s => OK (Z.of_nat (String.length s))
  | VList xs => OK (Z.of_nat (List.length xs))
  | VDict items => OK (Z.of_nat (List.length items))
  | _ => Raise TypeError
  end.

(** [v[i]] for an index literal [i].  The program subscripts by an index
    only after [assert_type(v, list)] or [assert_type(v, str)]; on a [str]
    the item is the one-character string at [i]. *)
Definition getitem (v : value) (i : nat) : result value :=
  match v with
  | VList xs =>
      match nth_error xs i with
      | Some x => OK x
      | None => Raise IndexError
      end
  | VStr s =>
      match String.get i s with
      | Some c => OK (VStr (String c EmptyString))
      | None => Raise IndexError
      end
  | _ => Raise TypeError
  end.

(** Lookup of a [str] key among the items of a [dict]: a key that is not a
    [str] is not equal to it. *)
Fixpoint dict_get (items : list (value * value)) (k : string) : option value :=
  match items with
  | [] => None
  | (k', v) :: items' => if eq_str k' k then Some v else dict_get items' k
  end.

(** [v[k]] for a [str] key [k]: [KeyError] on a [dict] without the key,
    [TypeError] on everything that is not a [dict] (a [list] and a [str]
    take integer indices, the other objects are not subscriptable). *)
Definition getitem_str (v : value) (k : string) : result value :=
  match v with
  | VDict items =>
      match dict_get items k with
      | Some x => OK x
      | None => Raise KeyError
      end
  | _ => Raise TypeError
  end.

(** The items [for x in v] runs through: the items of a [list], the keys of
    a [dict], the one-character strings of a [str]; nothing else here is
    iterable. *)
Fixpoint chars (s : string) : list value :=
  match s with
  | EmptyString => []
  | String c s' => VStr (String c EmptyString) :: chars s'
  end.

Definition iter (v : value) : result (list value) :=
  match v with
  | VList xs => OK xs
  | VDict items => OK (map fst items)
  | VStr s => OK (chars s)
  | _ => Raise TypeError
  end.

(** [next(iter(v))] *)
Definition next_iter (v : value) : result value :=
  do xs <- iter v;
  match xs with
  | x :: _ => OK x
  | [] => Raise StopIteration
  end.

(** [v.values()] *)
Definition values (v : value) : result value :=
  match v with
  | VDict items => OK (VList (map snd items))
  | _ => Raise AttributeError
  end.

(** [list(v)]: a new list of the items of [v]. *)
Definition list_copy (v : value) : result value :=
  do xs <- iter v; OK (VList xs).

(** [dict(v)]: a new dict of the items of the dict [v]. *)
Definition dict_copy (v : value) : result value :=
  match v with
  | VDict items => OK (VDict items)
  | _ => Raise TypeError
  end.

(** [needle in haystack] on two [str]: substring search. *)
Fixpoint prefix_of (p s : string) : bool :=
  match p, s with
  | EmptyString, _ => true
  | String a p', String b s' => Ascii.eqb a b && prefix_of p' s'
  | String _ _, EmptyString => false
  end.

Fixpoint str_contains (haystack needle : string) : bool :=
  prefix_of needle haystack
  || match haystack with
     | EmptyString => false
     | String _ rest => str_contains rest needle
     end.

Definition contains (haystack needle : value) : result bool :=
  match haystack, needle with
  | VStr h, VStr n => OK (str_contains h n)
  | _, _ => Raise TypeError
  end.

(** ** util.py *)

Definition assert_ (b : bool) : result unit :=
  if b then OK tt else Raise AssertionError.

(** [assert_type(value, typ, *, null_ok=False)] *)
Definition assert_type (v : value) (typ : pytype) (null_ok : bool) : result unit :=
  if null_ok && is_None v then OK tt
  else assert_ (isinstance v typ).

(** [assert_int_nonneg(value, *, null_ok=False)]: the comparison is
    evaluated only when the [isinstance] test holds. *)
Definition assert_int_nonneg (v : value) (null_ok : bool) : result unit :=
  if null_ok && is_None v then OK tt
  else if isinstance v t_int then do b <- ge_int v 0; assert_ b
  else Raise AssertionError.

(** [assert_int_pos(value, *, null_ok=False)] *)
Definition assert_int_pos (v : value) (null_ok : bool) : result unit :=
  if null_ok && is_None v then OK tt
  else if isinstance v t_int then do b <- gt_int v 0; assert_ b
  else Raise AssertionError.

(** [assert_str_nonempty(value, *, null_ok=False)]: the asserted expression
    [isinstance(value, str) and value] is [value] itself on a [str], and an
    empty [str] is false. *)
Definition assert_str_nonempty (v : value) (null_ok : bool) : result unit :=
  if null_ok && is_None v then OK tt
  else if isinstance v t_str then assert_ (truthy v)
  else Raise AssertionError.

(** ** state.py *)

(** [Suit(v)]: lookup of the member by its value. *)
Definition Suit_call (v : value) : result Suit :=
  match v with
  | VSuit s => OK s
  | VStr s =>
      if String.eqb s "h" then OK HEARTS
      else if String.eqb s "d" then OK DIAMONDS
      else if String.eqb s "s" then OK SPADES
      else if String.eqb s "c" then OK CLUBS
      else Raise ValueError
  | _ => Raise ValueError
  end.

(** The value of a member, [Suit.value]. *)
Definition Suit_value (s : Suit) : string :=
  match s with
  | HEARTS => "h"
  | DIAMONDS => "d"
  | SPADES => "s"
  | CLUBS => "c"
  end.

Definition VALID_VALUES : string := "A23456789TJQK".

(** [Card.__init__]: the rank character is checked and not kept; the only
    attribute set is [_suit].  A character of the model's string stands for
    a character of the Python [str], which is exact for ASCII texts, the
    valid codes among them; a text with other characters is refused here as
    it is by the code, though the length check may come first where the code
    reaches [Suit]. *)
Definition Card_init (rep : value) : result value :=
  do_ assert_type rep t_str false;
  do n <- len rep;
  do_ assert_ (n =? 2);
  do r0 <- getitem rep 0;
  do b <- contains (VStr VALID_VALUES) r0;
  do_ assert_ b;
  do r1 <- getitem rep 1;
  do suit <- Suit_call r1;
  OK (VCard suit).

(** [PlayerGameState.__init__] *)
Definition PlayerGameState_init (cards folded stack bet pot_share : value)
  : result value :=
  do_ assert_type cards t_list false;
  do n <- len cards;
  do_ assert_ (n =? 2);
  do c0 <- getitem cards 0;
  do_ assert_type c0 t_Card true;
  do c1 <- getitem cards 1;
  do_ assert_type c1 t_Card true;
  do_ assert_type folded t_bool false;
  do_ assert_int_nonneg stack false;
  do_ assert_int_nonneg bet false;
  do_ assert_int_nonneg pot_share false;
  OK (VPlayerGameState cards folded stack bet pot_share).

Definition get_cards (self : value) : result value :=
  match self with
  | VPlayerGameState _cards _ _ _ _ => list_copy _cards
  | _ => Raise AttributeError
  end.

Definition get_stack (self : value) : result value :=
  match self with
  | VPlayerGameState _ _ _stack _ _ => OK _stack
  | _ => Raise AttributeError
  end.

Definition get_bet (self : value) : result value :=
  match self with
  | VPlayerGameState _ _ _ _bet _ => OK _bet
  | _ => Raise AttributeError
  end.

Definition get_pot_share (self : value) : result value :=
  match self with
  | VPlayerGameState _ _ _ _ _pot_share => OK _pot_share
  | _ => Raise AttributeError
  end.

(** [return self._stack == 0 and self._pot_share > 0] *)
Definition is_all_in (self : value) : result value :=
  match self with
  | VPlayerGameState _ _ _stack _ _pot_share =>
      if eq_int _stack 0
      then do b <- gt_int _pot_share 0; OK (VBool b)
      else OK (VBool false)
  | _ => Raise AttributeError
  end.

(** [Pot.__init__]: only the first key and the first value of a non-empty
    [player_shares] are looked at; the dict is copied. *)
Definition Pot_init (amount player_shares : value) : result value :=
  do_ assert_int_nonneg amount false;
  do_ assert_type player_shares t_dict false;
  do_ (if truthy player_shares then
         do k <- next_iter player_shares;
         do_ assert_type k t_PlayerId false;
         do vs <- values player_shares;
         do v <- next_iter vs;
         assert_int_nonneg v false
       else OK tt);
  do copy <- dict_copy player_shares;
  OK (VPot amount copy).

Definition get_amount (self : value) : result value :=
  match self with
  | VPot _amount _ => OK _amount
  | _ => Raise AttributeError
  end.

Definition get_player_shares (self : value) : result value :=
  match self with
  | VPot _ _player_shares => dict_copy _player_shares
  | _ => Raise AttributeError
  end.

(** [SharedGameState.__init__] *)
Definition SharedGameState_init
  (pot_total pots board_cards small_blind big_blind : value) : result value :=
  do_ assert_int_nonneg pot_total false;
  do_ assert_type pots t_list false;
  do_ assert_ (truthy pots);
  do p0 <- getitem pots 0;
  do_ assert_type p0 t_Pot false;
  do_ assert_type board_cards t_list false;
  do n <- len board_cards;
  do_ assert_ ((3 <=? n) && (n <=? 5));
  do b0 <- getitem board_cards 0;
  do_ assert_type b0 t_Card false;
  do_ assert_int_nonneg small_blind false;
  do_ assert_int_nonneg big_blind false;
  OK (VSharedGameState pot_total pots board_cards small_blind big_blind).

Definition get_pot_total (self : value) : result value :=
  match self with
  | VSharedGameState _pot_total _ _ _ _ => OK _pot_total
  | _ => Raise AttributeError
  end.

Definition get_pots (self : value) : result value :=
  match self with
  | VSharedGameState _ _pots _ _ _ => list_copy _pots
  | _ => Raise AttributeError
  end.

Definition get_board_cards (self : value) : result value :=
  match self with
  | VSharedGameState _ _ _board_cards _ _ => list_copy _board_cards
  | _ => Raise AttributeError
  end.

Definition get_small_blind (self : value) : result value :=
  match self with
  | VSharedGameState _ _ _ _small_blind _ => OK _small_blind
  | _ => Raise AttributeError
  end.

Definition get_big_blind (self : value) : result value :=
  match self with
  | VSharedGameState _ _ _ _ _big_blind => OK _big_blind
  | _ => Raise AttributeError
  end.

(** [GameState.__init__] *)
Definition GameState_init
  (shared_state player_states dealer_player small_blind_player
   big_blind_player active_player : value) : result value :=
  do_ assert_type shared_state t_SharedGameState false;
  do_ assert_type player_states t_dict false;
  do_ (if truthy player_states then
         do k <- next_iter player_states;
         do_ assert_type k t_PlayerId false;
         do vs <- values player_states;
         do v <- next_iter vs;
         assert_type v t_PlayerGameState false
       else OK tt);
  do_ assert_type dealer_player t_PlayerId false;
  do_ assert_type small_blind_player t_PlayerId false;
  do_ assert_type big_blind_player t_PlayerId false;
  do_ assert_type active_player t_PlayerId true;
  OK (VGameState shared_state player_states dealer_player small_blind_player
        big_blind_player active_player).

Definition get_shared_state (self : value) : result value :=
  match self with
  | VGameState _shared_state _ _ _ _ _ => OK _shared_state
  | _ => Raise AttributeError
  end.

Definition get_player_states (self : value) : result value :=
  match self with
  | VGameState _ _player_states _ _ _ _ => dict_copy _player_states
  | _ => Raise AttributeError
  end.

Definition get_active_player (self : value) : result value :=
  match self with
  | VGameState _ _ _ _ _ _active_player => OK _active_player
  | _ => Raise AttributeError
  end.

Definition get_dealer_player (self : value) : result value :=
  match self with
  | VGameState _ _ _dealer_player _ _ _ => OK _dealer_player
  | _ => Raise AttributeError
  end.

Definition get_small_blind_player (self : value) : result value :=
  match self with
  | VGameState _ _ _ _small_blind_player _ _ => OK _small_blind_player
  | _ => Raise AttributeError
  end.

Definition get_big_blind_player (self : value) : result value :=
  match self with
  | VGameState _ _ _ _ _big_blind_player _ => OK _big_blind_player
  | _ => Raise AttributeError
  end.

(** [PlayerId.__eq__] *)
Definition PlayerId_eq (self other : value) : bool :=
  isinstance other t_PlayerId
  && match self, other with
     | VPlayerId u, VPlayerId u' => (u =? u')%N
     | _, _ => false
     end.

(** Whether [hash(v)] exists.  [list] and [dict] are unhashable.  [PlayerId]
    (state.py lines 8 to 14) defines [__eq__] and no [__hash__]; by Python's
    data model a class that overrides [__eq__] without defining [__hash__]
    has its [__hash__] set to [None], and hashing an instance raises
    [TypeError: unhashable type].  The other classes keep the hash they
    inherit ([object], [Enum]). *)
Definition hashable (v : value) : bool :=
  match v with
  | VList _ | VDict _ => false
  | VPlayerId _ => false
  | _ => true
  end.

(** [a == b] between two dict keys.  Keys of this program are [str] (the
    objects of a payload) and [PlayerId]; [None], [bool], [int] and the
    enumeration members are compared as Python does.  A key of another
    hashable kind is taken for a key not yet present. *)
Definition key_eq (a b : value) : bool :=
  match a, b with
  | VNone, VNone => true
  | VStr s, _ => eq_str b s
  | (VBool _ | VInt _), VBool c => eq_int a (Z.b2z c)
  | (VBool _ | VInt _), VInt n => eq_int a n
  | VSuit s, VSuit s' => String.eqb (Suit_value s) (Suit_value s')
  | VActionType_TODO, VActionType_TODO => true
  | VPlayerId _, _ => PlayerId_eq a b
  | _, _ => false
  end.

Fixpoint dict_store (items : list (value * value)) (k v : value)
  : list (value * value) :=
  match items with
  | [] => [(k, v)]
  | (k', v') :: items' =>
      if key_eq k' k then (k', v) :: items'
      else (k', v') :: dict_store items' k v
  end.

(** [d[k] = v]: the key is hashed first. *)
Definition dict_setitem (d k v : value) : result value :=
  match d with
  | VDict items =>
      if hashable k then OK (VDict (dict_store items k v))
      else Raise TypeError
  | _ => Raise TypeError
  end.

(** [FAKE_PLAYER_ID = PlayerId("12345678-1234-5678-1234-567812345678")],
    evaluated once when the module is loaded. *)
Definition FAKE_PLAYER_ID : value :=
  VPlayerId 0x12345678123456781234567812345678%N.

(** ** message.py *)

(** [ActionType(v)]: the enumeration has the one member [TODO = ""]. *)
Definition ActionType_call (v : value) : result value :=
  match v with
  | VActionType_TODO => OK VActionType_TODO
  | VStr s => if String.eqb s "" then OK VActionType_TODO else Raise ValueError
  | _ => Raise ValueError
  end.

(** [GameStateMessage.__init__] *)
Definition GameStateMessage_init (action_type game_state action_requested : value)
  : result value :=
  do_ assert_type action_type t_ActionType false;
  do_ assert_type game_state t_GameState false;
  do_ assert_type action_requested t_bool false;
  OK (VGameStateMessage action_type game_state action_requested).

Definition get_game_state (self : value) : result value :=
  match self with
  | VGameStateMessage _ _game_state _ => OK _game_state
  | _ => Raise AttributeError
  end.

Definition is_action_requested (self : value) : result value :=
  match self with
  | VGameStateMessage _ _ _action_requested => OK _action_requested
  | _ => Raise AttributeError
  end.

Definition get_action_type (self : value) : result value :=
  match self with
  | VGameStateMessage _action_type _ _ => OK _action_type
  | _ => Raise AttributeError
  end.

(** ** net.py: the event decoder *)

Section Decoder.

(** [uuid.UUID(hex).int] of the standard library: the 128-bit integer of
    the text, [None] where the constructor raises [ValueError]. *)
Variable uuid_hex : string -> option N.

(** [PlayerId.__init__]: [UUID(uuid_str)] calls [uuid_str.replace], which
    only a [str] has, and refuses [None] with [TypeError]. *)
Definition PlayerId_init (uuid_str : value) : result value :=
  match uuid_str with
  | VStr s =>
      match uuid_hex s with
      | Some u => OK (VPlayerId u)
      | None => Raise ValueError
      end
  | VNone => Raise TypeError
  | _ => Raise AttributeError
  end.

(** The body of the loop of [parse_game_state], up to the store (net.py
    lines 29 to 44): the key and the [PlayerGameState] made for the entry
    [player_spec] of the outer payload [json]. *)
Definition player_entry (json player_spec : value) : result (value * value) :=
  do id <- getitem_str player_spec "id";
  do player_id <- PlayerId_init id;
  do card_specs <- getitem_str json "holeCards";
  do player_cards <-
    (if negb (is_None card_specs) then
       do specs <- iter card_specs;
       do cards <- mapM Card_init specs;
       OK (VList cards)
     else OK (VList [VNone; VNone]));
  do folded <- getitem_str json "folded";
  do stack <- getitem_str json "stack";
  do bet <- getitem_str json "bet";
  do pot_share <- getitem_str json "pot_share";
  do state <- PlayerGameState_init player_cards folded stack bet pot_share;
  OK (player_id, state).

(** One turn of the loop: [player_states[player_id] = PlayerGameState(...)]
    on the dict [player_states] built so far. *)
Definition parse_player (json player_states player_spec : value) : result value :=
  do entry <- player_entry json player_spec;
  dict_setitem player_states (fst entry) (snd entry).

(** [parse_game_state] *)
Definition parse_game_state (json : value) : result value :=
  do players <- getitem_str json "players";
  do player_specs <- iter players;
  do player_states <- for_each (parse_player json) player_specs (VDict []);
  do pot_total <- getitem_str json "pot";
  do amount <- getitem_str json "pot";
  do pot <- Pot_init amount (VDict []);
  do community <- getitem_str json "communityCards";
  do card_specs <- iter community;
  do board_cards <- mapM Card_init card_specs;
  do small_blind <- getitem_str json "smallBlindAmount";
  do big_blind <- getitem_str json "bigBlindAmount";
  do shared_state <-
    SharedGameState_init pot_total (VList [pot]) (VList board_cards)
      small_blind big_blind;
  do active <- getitem_str json "activeplayerId";
  do active_player <- PlayerId_init active;
  GameState_init shared_state player_states FAKE_PLAYER_ID FAKE_PLAYER_ID
    FAKE_PLAYER_ID active_player.

(** [parse_game_state_message] *)
Definition parse_game_state_message (json : value) : result value :=
  do action <- getitem_str json "action";
  do action_type <- ActionType_call action;
  do game_state_spec <- getitem_str json "game_state";
  do game_state <- parse_game_state game_state_spec;
  do action_requested <- getitem_str json "actionRequested";
  GameStateMessage_init action_type game_state action_requested.

End Decoder.

(** ** A UUID reader to run the decoder on examples

    [uuid.UUID] drops the hyphens of its argument and reads the 32
    hexadecimal digits that must remain.  [uuid_plain_hex] does that and no
    more (no [urn:uuid:] prefix, no braces), so it is defined on fewer texts
    than the library's constructor and agrees with it where it is defined. *)

Definition hex_digit (c : ascii) : option N :=
  let n := N_of_ascii c in
  if ((48 <=? n) && (n <=? 57))%N then Some (n - 48)%N
  else if ((97 <=? n) && (n <=? 102))%N then Some (n - 87)%N
  else if ((65 <=? n) && (n <=? 70))%N then Some (n - 55)%N
  else None.

Fixpoint drop_hyphens (s : string) : string :=
  match s with
  | EmptyString => EmptyString
  | String c s' =>
      if Ascii.eqb c "-" then drop_hyphens s' else String c (drop_hyphens s')
  end.

Fixpoint read_hex (s : string) (acc : N) : option N :=
  match s with
  | EmptyString => Some acc
  | String c s' =>
      match hex_digit c with
      | Some d => read_hex s' (16 * acc + d)%N
      | None => None
      end
  end.

Definition uuid_plain_hex (s : string) : option N :=
  let h := drop_hyphens s in
  if Nat.eqb (String.length h) 32 then read_hex h 0%N else None.

(** ** Payloads of the specification's scenarios *)

Definition sdict (items : list (string * value)) : value :=
  VDict (map (fun kv => (VStr (fst kv), snd kv)) items).

(** The state-sync payload of the specification's scenario, for a player
    identifier [uuid]. *)
Definition scenario_game_state (uuid : string) : value :=
  sdict [ ("players", VList [sdict [("id", VStr uuid)]]);
          ("holeCards", VNone);
          ("folded", VBool false);
          ("stack", VInt 100);
          ("bet", VInt 0);
          ("pot_share", VInt 0);
          ("pot", VInt 0);
          ("communityCards", VList [VStr "Ah"; VStr "Kd"; VStr "2s"]);
          ("smallBlindAmount", VInt 1);
          ("bigBlindAmount", VInt 2);
          ("activeplayerId", VStr uuid) ].

Definition scenario_payload (uuid : string) : value :=
  sdict [ ("event", VStr "gameState");
          ("action", VStr "");
          ("actionRequested", VBool true);
          ("game_state", scenario_game_state uuid) ].

Definition some_uuid : string := "6f1c2a9e-3b4d-4c5e-8f70-123456789abc".

(** ** net.py: the dispatch loop *)

(** [data.pop(k)] for a [str] key [k]: the value under the key and the dict
    without it; [KeyError] on a dict without the key.  [list.pop] wants an
    integer, and nothing else [json.loads] returns has a [pop]. *)
Fixpoint dict_remove (items : list (value * value)) (k : string)
  : list (value * value) :=
  match items with
  | [] => []
  | (k', v) :: items' =>
      if eq_str k' k then items' else (k', v) :: dict_remove items' k
  end.

Definition dict_pop (v : value) (k : string) : result (value * value) :=
  match v with
  | VDict items =>
      match dict_get items k with
      | Some x => OK (x, VDict (dict_remove items k))
      | None => Raise KeyError
      end
  | VList _ => Raise TypeError
  | _ => Raise AttributeError
  end.

(** What a turn of the loop does outside of its own variables. *)
Inductive effect : Type :=
| Printed (body : string)            (* print(f"Received: {body!r}") *)
| Handled (message : value)          (* bot.handle_game_state_message(message) *)
| Warned (event data : value).       (* logger.warning(..., event, data) *)

Section Client.

Variable uuid_hex : string -> option N.

(** [json.loads] of the standard library. *)
Variable json_loads : string -> result value.

(** The decision consumer, class [Bot] of [pokerathomebotlib.bot]: the
    state of the bot object, and what [handle_game_state_message] does to
    it, with the exception it raises if it raises one. *)
Variable Bot : Type.
Variable handle_game_state_message : Bot -> value -> Bot * result unit.

Record client : Type := Client { bot : Bot; trace : list effect }.

Definition emit (c : client) (e : effect) : client :=
  {| bot := bot c; trace := trace c ++ [e] |}.

(** The body of the [while True] of [do_client] for the received text
    [body]: the client afterwards, and the exception that left the body,
    if one did. *)
Definition on_message (c : client) (body : string) : client * result unit :=
  let c := emit c (Printed body) in
  match json_loads body with
  | Raise e => (c, Raise e)
  | OK data =>
      match dict_pop data "event" with
      | Raise e => (c, Raise e)
      | OK (event, data) =>
          if eq_str event "gameState" then
            match parse_game_state_message uuid_hex data with
            | Raise e => (c, Raise e)
            | OK message =>
                let (b, r) := handle_game_state_message (bot c) message in
                ({| bot := b; trace := trace c ++ [Handled message] |}, r)
            end
          else (emit c (Warned event data), OK tt)
      end
  end.

(** [do_client] on a connection that delivers the texts [incoming] and is
    then closed: [ws.recv()] raises on a closed connection, and no
    exception is caught, so the loop ends with the first one.  The result
    is the client at that point and the exception. *)
Fixpoint do_client (c : client) (incoming : list string) : client * exn :=
  match incoming with
  | [] => (c, ConnectionClosed)
  | body :: rest =>
      match on_message c body with
      | (c', OK _) => do_client c' rest
      | (c', Raise e) => (c', e)
      end
  end.

(** [connect(host)] of the [websockets] library: the texts the connection
    delivers before it is closed, or the exception of a connection that
    cannot be opened. *)
Variable connect : value -> result (list string).

(** [run_client(bot, host)]: the two assertions, then [do_client] until it
    raises.  The argument [bot] is a [Bot] with its state, or some other
    object; no object of [value] is a [Bot].  The result is the bot
    afterwards, what was done, and the exception. *)
Definition run_client (bot_arg : value + Bot) (host : value)
  : (value + Bot) * list effect * exn :=
  match bot_arg with
  | inl _ => (bot_arg, [], AssertionError)
  | inr b =>
      match assert_str_nonempty host false with
      | Raise e => (bot_arg, [], e)
      | OK _ =>
          match connect host with
          | Raise e => (bot_arg, [], e)
          | OK incoming =>
              let (c, e) := do_client (Client b []) incoming in
              (inr (bot c), trace c, e)
          end
      end
  end.

End Client.

Arguments Client {Bot} bot trace.
Arguments emit {Bot} c e.
Arguments bot {Bot} c.
Arguments trace {Bot} c.

(** ** Lists and dicts that a caller still holds

    The constructors above take a list or a dict for what it contains at the
    call.  Python passes the object itself, and the caller keeps it.  This
    module places the containers that are passed to a constructor or returned
    by an accessor in a heap, and gives each entity the address its
    attribute holds. *)
Module Shared.

(** Addresses, and the containers that exist, by address; a cell holds a
    [VList] or a [VDict]. *)
Abbreviation loc := nat.
Abbreviation heap := (gmap nat value).

Definition read (h : heap) (l : loc) : result value :=
  match h !! l with
  | Some v => OK v
  | None => Raise AttributeError
  end.

(** A new container. *)
Definition alloc (h : heap) (v : value) : loc * heap :=
  let l := fresh (dom h) in (l, <[l := v]> h).

(** What a caller's statements ([append], [clear], [x[i] = y], [del],
    [update], ...) can do to a container it holds: give it other
    contents. *)
Definition mutate (h : heap) (l : loc) (contents : value) : heap :=
  <[l := contents]> h.

(** [return list(x)] and [return dict(x)] of an accessor, for the container
    [x] at address [l]: a new container with the contents of [x]. *)
Definition return_copy (copy : value -> result value) (h : heap) (l : loc)
  : result (loc * heap) :=
  do xs <- read h l;
  do new <- copy xs;
  OK (alloc h new).

Record PlayerGameState : Type := {
  _cards : loc; _folded : value; _stack : value; _bet : value;
  _pot_share : value }.

(** [PlayerGameState.__init__]: the checks read the list, and
    [self._cards = cards] keeps the caller's list. *)
Definition PlayerGameState_new (h : heap) (cards : loc)
  (folded stack bet pot_share : value) : result PlayerGameState :=
  do xs <- read h cards;
  do_ PlayerGameState_init xs folded stack bet pot_share;
  OK {| _cards := cards; _folded := folded; _stack := stack; _bet := bet;
        _pot_share := pot_share |}.

(** [return list(self._cards)] *)
Definition get_cards (h : heap) (self : PlayerGameState) : result (loc * heap) :=
  return_copy list_copy h (_cards self).

Record Pot : Type := { _amount : value; _player_shares : loc }.

(** [Pot.__init__]: [self._player_shares = dict(player_shares)] keeps a
    new dict. *)
Definition Pot_new (h : heap) (amount : value) (player_shares : loc)
  : result (Pot * heap) :=
  do d <- read h player_shares;
  do_ Pot_init amount d;
  do copy <- dict_copy d;
  let (l, h') := alloc h copy in
  OK ({| _amount := amount; _player_shares := l |}, h').

(** [return dict(self._player_shares)] *)
Definition get_player_shares (h : heap) (self : Pot) : result (loc * heap) :=
  return_copy dict_copy h (_player_shares self).

Record SharedGameState : Type := {
  _pot_total : value; _pots : loc; _board_cards : loc;
  _small_blind : value; _big_blind : value }.

(** [SharedGameState.__init__]: [self._pots = pots] and
    [self._board_cards = board_cards] keep the caller's lists. *)
Definition SharedGameState_new (h : heap) (pot_total : value)
  (pots board_cards : loc) (small_blind big_blind : value)
  : result SharedGameState :=
  do ps <- read h pots;
  do bs <- read h board_cards;
  do_ SharedGameState_init pot_total ps bs small_blind big_blind;
  OK {| _pot_total := pot_total; _pots := pots; _board_cards := board_cards;
        _small_blind := small_blind; _big_blind := big_blind |}.

(** [return list(self._pots)] *)
Definition get_pots (h : heap) (self : SharedGameState) : result (loc * heap) :=
  return_copy list_copy h (_pots self).

(** [return list(self._board_cards)] *)
Definition get_board_cards (h : heap) (self : SharedGameState)
  : result (loc * heap) :=
  return_copy list_copy h (_board_cards self).

Record GameState : Type := {
  _shared_state : value; _player_states : loc;
  _dealer_player : value; _small_blind_player : value;
  _big_blind_player : value; _active_player : value }.

(** [GameState.__init__]: [self._player_states = player_states] keeps the
    caller's dict. *)
Definition GameState_new (h : heap) (shared_state : value)
  (player_states : loc)
  (dealer_player small_blind_player big_blind_player active_player : value)
  : result GameState :=
  do d <- read h player_states;
  do_ GameState_init shared_state d dealer_player small_blind_player
        big_blind_player active_player;
  OK {| _shared_state := shared_state; _player_states := player_states;
        _dealer_player := dealer_player;
        _small_blind_player := small_blind_player;
        _big_blind_player := big_blind_player;
        _active_player := active_player |}.

(** [return dict(self._player_states)] *)
Definition get_player_states (h : heap) (self : GameState)
  : result (loc * heap) :=
  return_copy dict_copy h (_player_states self).

(** The contents of the container an accessor returned. *)
Definition returned (r : result (loc * heap)) : result value :=
  do lh <- r; read (snd lh) (fst lh).

(** A caller that holds one list, two unknown hole cards, and the
    [PlayerGameState] it constructs from that list. *)
Definition callers_heap : heap := {[ 0%nat := VList [VNone; VNone] ]}.

Definition callers_player : PlayerGameState :=
  {| _cards := 0%nat; _folded := VBool false; _stack := VInt 100;
     _bet := VInt 0; _pot_share := VInt 0 |}.

End Shared.

(** ** A decoder and a bot to run the loop on examples *)

(** A [json.loads] known on the texts of a table; a text that is not in the
    table is refused ([JSONDecodeError] is a [ValueError]). *)
Fixpoint json_loads_table (table : list (string * value)) (body : string)
  : result value :=
  match table with
  | [] => Raise ValueError
  | (text, v) :: table' =>
      if String.eqb text body then OK v else json_loads_table table' body
  end.

(** A bot that counts the messages it is handed. *)
Definition counting_bot (n : nat) (message : value) : nat * result unit :=
  (S n, OK tt).

Definition quoted (s : string) : string :=
  String (ascii_of_nat 34) (s ++ String (ascii_of_nat 34) EmptyString).

Definition ping_text : string :=
  "{" ++ quoted "event" ++ ": " ++ quoted "ping" ++ "}".
Definition ping_payload : value := sdict [("event", VStr "ping")].

Definition no_event_text : string :=
  "{" ++ quoted "action" ++ ": " ++ quoted "" ++ "}".
Definition no_event_payload : value := sdict [("action", VStr "")].

Definition example_loads : string -> result value :=
  json_loads_table [(ping_text, ping_payload); (no_event_text, no_event_payload)].
(** * The vocabulary of the specification *)

(** The number an [int] object stands for; a [bool] is an [int]
    ([True] is 1 and [False] is 0). *)
Definition int_value (v : value) : option Z :=
  match v with
  | VInt n => Some n
  | VBool b => Some (Z.b2z b)
  | _ => None
  end.

(** A nonnegative integer, in Python's sense of integer
    ([isinstance(v, int)]). *)
Definition nonneg_int (v : value) : Prop :=
  exists n, int_value v = Some n /\ 0 <= n.

(** The two-character codes of the specification: a rank character of
    [A23456789TJQK] followed by a suit character among [h], [d], [s], [c]. *)
Definition rank_chars : list ascii := list_ascii_of_string "A23456789TJQK".
Definition suit_chars : list ascii := ["h"; "d"; "s"; "c"]%char.

Definition valid_code (rep : string) : Prop :=
  exists r s, rep = String r (String s EmptyString)
              /\ In r rank_chars /\ In s suit_chars.

(** A card reader can only see the attribute [_suit]. *)
Definition reencodes (encode : value -> string) (rep : string) : Prop :=
  exists card, Card_init (VStr rep) = OK card /\ encode card = rep.

(** The hole cards the specification allows: a pair, each card known or
    unknown. *)
Definition card_or_None (c : value) : Prop :=
  c = VNone \/ exists suit, c = VCard suit.

Definition hole_cards (cards : value) : Prop :=
  exists c0 c1, cards = VList [c0; c1] /\ card_or_None c0 /\ card_or_None c1.


Definition is_bool (v : value) : Prop := exists b, v = VBool b.

(** A non-empty list of pots, a list of cards. *)
Definition is_pot (v : value) : Prop := exists amount shares, v = VPot amount shares.
Definition is_card (v : value) : Prop := exists suit, v = VCard suit.

Definition pot_list (pots : value) : Prop :=
  exists p ps, pots = VList (p :: ps) /\ Forall is_pot (p :: ps).

(** The items of a dict that can exist: every key has been hashed when it
    was stored. *)
Definition keys_hashable (items : list (value * value)) : Prop :=
  Forall (fun kv => hashable (fst kv) = true) items.

(** A share mapping as the specification wants it: every key a [PlayerId],
    every value a nonnegative integer. *)
Definition valid_shares (items : list (value * value)) : Prop :=
  Forall (fun kv => isinstance (fst kv) t_PlayerId = true /\ nonneg_int (snd kv))
         items.

Definition negative_int (v : value) : Prop :=
  exists n, int_value v = Some n /\ n < 0.

(** A raw payload: what [json.loads] returns.  The keys of an object are
    strings. *)
Inductive json_value : value -> Prop :=
| json_None : json_value VNone
| json_Bool (b : bool) : json_value (VBool b)
| json_Int (n : Z) : json_value (VInt n)
| json_Float (f : pyfloat) : json_value (VFloat f)
| json_Str (s : string) : json_value (VStr s)
| json_List (xs : list value) :
    Forall json_value xs -> json_value (VList xs)
| json_Dict (items : list (value * value)) :
    Forall (fun kv => (exists k, fst kv = VStr k) /\ json_value (snd kv)) items ->
    json_value (VDict items).

(** The payload [d] is an object that has the key [k], with a value that
    meets [P]. *)
Definition field (d : value) (k : string) (P : value -> Prop) : Prop :=
  exists items x, d = VDict items /\ dict_get items k = Some x /\ P x.

Definition present (v : value) : Prop := True.

(** A community-card field that yields 3 to 5 valid card codes. *)
Definition board_codes (v : value) : Prop :=
  exists codes,
    iter v = OK codes
    /\ (3 <= List.length codes <= 5)%nat
    /\ Forall (fun c => exists rep, c = VStr rep /\ valid_code rep) codes.

Section Requirements.

Variable uuid_hex : string -> option N.

Definition uuid_text (v : value) : Prop :=
  exists s u, v = VStr s /\ uuid_hex s = Some u.

(** What the decode needs of a state-sync payload, whatever its players. *)
Definition game_state_requirements (g : value) : Prop :=
  field g "players" present
  /\ field g "pot" nonneg_int
  /\ field g "communityCards" board_codes
  /\ field g "smallBlindAmount" nonneg_int
  /\ field g "bigBlindAmount" nonneg_int
  /\ field g "activeplayerId" uuid_text.

Definition message_requirements (json : value) : Prop :=
  field json "action" (fun v => v = VStr "")
  /\ field json "game_state" game_state_requirements
  /\ field json "actionRequested" is_bool.

End Requirements.

(** A state-sync payload without players and without the keys [holeCards],
    [folded], [stack], [bet] and [pot_share]. *)
Definition empty_table_game_state (uuid : string) : value :=
  sdict [ ("players", VList []);
          ("pot", VInt 0);
          ("communityCards", VList [VStr "Ah"; VStr "Kd"; VStr "2s"]);
          ("smallBlindAmount", VInt 1);
          ("bigBlindAmount", VInt 2);
          ("activeplayerId", VStr uuid) ].

Definition empty_table_payload (uuid : string) : value :=
  sdict [ ("action", VStr "");
          ("actionRequested", VBool true);
          ("game_state", empty_table_game_state uuid) ].

(** More received texts, with the payloads [json.loads] makes of them: a
    state-sync event of a table without players, the state-sync event of the
    specification's scenario, an array and null.  [broken_text] is not
    JSON. *)
Definition empty_table_event : value :=
  sdict [ ("event", VStr "gameState");
          ("action", VStr "");
          ("actionRequested", VBool true);
          ("game_state", empty_table_game_state some_uuid) ].

Definition empty_table_text : string :=
  "{" ++ quoted "event" ++ ": " ++ quoted "gameState" ++ ", " ++
  quoted "action" ++ ": " ++ quoted "" ++ ", " ++ quoted "actionRequested" ++
  ": true, " ++ quoted "game_state" ++ ": {" ++ quoted "players" ++
  ": [], " ++ quoted "pot" ++ ": 0, " ++ quoted "communityCards" ++ ": [" ++
  quoted "Ah" ++ ", " ++ quoted "Kd" ++ ", " ++ quoted "2s" ++ "], " ++
  quoted "smallBlindAmount" ++ ": 1, " ++ quoted "bigBlindAmount" ++
  ": 2, " ++ quoted "activeplayerId" ++ ": " ++
  quoted "6f1c2a9e-3b4d-4c5e-8f70-123456789abc" ++ "}}".

Definition scenario_text : string :=
  "{" ++ quoted "event" ++ ": " ++ quoted "gameState" ++ ", " ++
  quoted "action" ++ ": " ++ quoted "" ++ ", " ++ quoted "actionRequested" ++
  ": true, " ++ quoted "game_state" ++ ": {" ++ quoted "players" ++ ": [{" ++
  quoted "id" ++ ": " ++ quoted "6f1c2a9e-3b4d-4c5e-8f70-123456789abc" ++
  "}], " ++ quoted "holeCards" ++ ": null, " ++ quoted "folded" ++
  ": false, " ++ quoted "stack" ++ ": 100, " ++ quoted "bet" ++ ": 0, " ++
  quoted "pot_share" ++ ": 0, " ++ quoted "pot" ++ ": 0, " ++
  quoted "communityCards" ++ ": [" ++ quoted "Ah" ++ ", " ++ quoted "Kd" ++
  ", " ++ quoted "2s" ++ "], " ++ quoted "smallBlindAmount" ++ ": 1, " ++
  quoted "bigBlindAmount" ++ ": 2, " ++ quoted "activeplayerId" ++ ": " ++
  quoted "6f1c2a9e-3b4d-4c5e-8f70-123456789abc" ++ "}}".

Definition array_text : string := "[]".
Definition null_text : string := "null".
Definition broken_text : string := "{".

Definition more_loads : string -> result value :=
  json_loads_table [ (ping_text, ping_payload);
                     (empty_table_text, empty_table_event);
                     (scenario_text, scenario_payload some_uuid);
                     (array_text, VList []);
                     (null_text, VNone) ].

(** A bot that raises on every message. *)
Definition refusing_bot (n : nat) (message : value) : nat * result unit :=
  (n, Raise ValueError).

(** A [connect] that opens one address only. *)
Definition example_connect (texts : list string) (host : value)
  : result (list string) :=
  if eq_str host "ws://localhost:9999" then OK texts else Raise ConnectionClosed.

(** The message decoded from [empty_table_event]. *)
Definition empty_table_message : value :=
  VGameStateMessage VActionType_TODO
    (VGameState
       (VSharedGameState (VInt 0) (VList [VPot (VInt 0) (VDict [])])
          (VList [VCard HEARTS; VCard DIAMONDS; VCard SPADES]) (VInt 1) (VInt 2))
       (VDict []) FAKE_PLAYER_ID FAKE_PLAYER_ID FAKE_PLAYER_ID
       (VPlayerId 0x6f1c2a9e3b4d4c5e8f70123456789abc%N))
    (VBool true).

(** The texts that a sequence of effects printed, in order. *)
Fixpoint printed_bodies (events : list effect) : list string :=
  match events with
  | [] => []
  | Printed body :: events' => body :: printed_bodies events'
  | _ :: events' => printed_bodies events'
  end.

(** A caller that holds one empty dict of shares. *)
Definition shares_heap : gmap nat value := {[ 0%nat := VDict [] ]}.




(** A text of ASCII characters: each character of the model's string is
    one character of the Python [str]. *)
Definition ascii_text (s : string) : Prop :=
  Forall (fun c => (nat_of_ascii c < 128)%nat) (list_ascii_of_string s).

(** What one turn of the loop does after printing the text: nothing more,
    one call of the bot, or one warning. *)
Definition at_most_one_action (tail : list effect) : Prop :=
  tail = []
  \/ (exists message, tail = [Handled message])
  \/ (exists event data, tail = [Warned event data]).

(** The effects of the turns on a sequence of texts, each text with what
    followed its print. *)
Definition block_effects (blocks : list (string * list effect)) : list effect :=
  flat_map (fun b => Printed (fst b) :: snd b) blocks.

Section Turns.

Variable uuid_hex : string -> option N.
Variable json_loads : string -> result value.
Variable Bot : Type.
Variable handle_game_state_message : Bot -> value -> Bot * result unit.

(** [processed c xs c']: the turns of the loop on the texts [xs], taken one
    after the other from the client [c], all return, and leave the client
    [c']. *)
Inductive processed : client Bot -> list string -> client Bot -> Prop :=
| processed_nil (c : client Bot) : processed c [] c
| processed_cons (c c1 c' : client Bot) (body : string) (rest : list string)
    (u : unit) :
    on_message uuid_hex json_loads Bot handle_game_state_message c body
    = (c1, OK u) ->
    processed c1 rest c' ->
    processed c (body :: rest) c'.

End Turns.

Arguments processed uuid_hex json_loads {Bot} handle_game_state_message.
(** * Properties *)

(** ** The error monad *)

Lemma bind_OK {A B : Type} (m : result A) (k : A -> result B) (b : B) :
  bind m k = OK b -> exists a, m = OK a /\ k a = OK b.
Proof. destruct m as [a|e]; simpl; [eauto | discriminate]. Qed.

Lemma bind_Raise {A B : Type} (m : result A) (k : A -> result B) (e : exn) :
  m = Raise e -> bind m k = Raise e.
Proof. intros ->; reflexivity. Qed.

Lemma result_cases {A : Type} (m : result A) : succeeds m \/ fails m.
Proof. destruct m as [a|e]; [left | right]; eexists; reflexivity. Qed.

Lemma not_succeeds_fails {A : Type} (m : result A) : ~ succeeds m <-> fails m.
Proof.
  split.
  - intros H. destruct m as [a|e]; [exfalso; apply H | ]; eexists; reflexivity.
  - intros [e ->] [a H]. discriminate.
Qed.

Lemma fails_not_OK {A : Type} (m : result A) (a : A) : fails m -> m <> OK a.
Proof. intros [e ->]; discriminate. Qed.

(** Splits a hypothesis [bind m k = OK b] into its two steps. *)
Ltac bind_inv H :=
  let a := fresh "x" in
  let Ha := fresh "E" in
  apply bind_OK in H; destruct H as (a & Ha & H).

Tactic Notation "bind_step" hyp(H) "as" ident(a) ident(Ha) :=
  apply bind_OK in H; destruct H as (a & Ha & H).

Lemma assert_OK (b : bool) (u : unit) : assert_ b = OK u <-> b = true.
Proof. destruct b, u; simpl; split; congruence. Qed.

Lemma assert_type_OK (v : value) (t : pytype) (u : unit) :
  assert_type v t false = OK u <-> isinstance v t = true.
Proof. unfold assert_type; simpl. apply assert_OK. Qed.

Lemma assert_type_null_OK (v : value) (t : pytype) (u : unit) :
  assert_type v t true = OK u <-> v = VNone \/ isinstance v t = true.
Proof.
  unfold assert_type; simpl. destruct v; simpl; rewrite ?assert_OK;
    try (destruct u; split; [now left | reflexivity]);
    (split; [now right | now intros [?|?]]).
Qed.

(** ** Integers as the library accepts them *)

Lemma assert_int_nonneg_OK (v : value) (u : unit) :
  assert_int_nonneg v false = OK u <-> nonneg_int v.
Proof.
  destruct u. unfold assert_int_nonneg, nonneg_int; simpl.
  destruct v as [ |b|n| | | | | | | | | | | | | ]; simpl;
    try (split; [discriminate | intros (n' & H & _); discriminate]).
  - split; [intros _ | intros _; destruct b; reflexivity].
    exists (Z.b2z b); split; [reflexivity | destruct b; simpl; lia].
  - unfold ge_int; simpl. split.
    + intros H. exists n; split; [reflexivity | ].
      destruct (Z.compare_spec n 0); simpl in H; [lia | discriminate | lia].
    + intros (n' & [= <-] & Hn).
      destruct (Z.compare_spec n 0); simpl; [reflexivity | lia | reflexivity].
Qed.

Lemma nonneg_int_VInt (n : Z) : nonneg_int (VInt n) <-> 0 <= n.
Proof.
  split; [intros (m & [= <-] & H); exact H | intros H; exists n; split; [reflexivity | exact H]].
Qed.

(** ** Card *)

(** [c in h] for a one-character [c] is membership among the characters. *)
Lemma str_contains_char (h : string) (c : ascii) :
  str_contains h (String c EmptyString) = true <-> In c (list_ascii_of_string h).
Proof.
  induction h as [ | a h IH]; simpl.
  - split; [discriminate | tauto].
  - rewrite orb_true_iff, andb_true_iff, IH.
    destruct (Ascii.eqb_spec c a) as [-> | Hne].
    + destruct h; simpl; tauto.
    + split.
      * intros [[? _] | ?]; [discriminate | now right].
      * intros [-> | ?]; [congruence | now right].
Qed.

Lemma Suit_call_char (s : ascii) (suit : Suit) :
  Suit_call (VStr (String s EmptyString)) = OK suit ->
  In s suit_chars /\ Suit_value suit = String s EmptyString.
Proof.
  unfold Suit_call, suit_chars.
  repeat match goal with
         | |- context [String.eqb ?a ?b] => destruct (String.eqb_spec a b) as [[= ->] | _]
         end;
    intros [= <-]; simpl; tauto.
Qed.

Lemma Card_init_length_2 (rep : string) (card : value) :
  Card_init (VStr rep) = OK card ->
  exists r s, rep = String r (String s EmptyString).
Proof.
  unfold Card_init; simpl. intros H.
  destruct rep as [ | r [ | s [ | c rest]]]; try discriminate; [eauto | ].
  exfalso. cbn [String.length] in H.
  replace (Z.of_nat (S (S (S (String.length rest)))) =? 2) with false in H
    by (symmetry; apply Z.eqb_neq; lia).
  discriminate.
Qed.

Lemma Card_init_OK_valid (rep : string) (card : value) :
  Card_init (VStr rep) = OK card -> valid_code rep.
Proof.
  intros H. destruct (Card_init_length_2 _ _ H) as (r & s & ->).
  exists r, s. split; [reflexivity | ].
  unfold Card_init in H. repeat bind_inv H.
  assert (x2 = VStr (String r EmptyString)) as -> by (simpl in E2; congruence).
  assert (x5 = VStr (String s EmptyString)) as -> by (simpl in E5; congruence).
  assert (x3 = str_contains VALID_VALUES (String r EmptyString)) as ->
    by (unfold contains in E3; congruence).
  apply assert_OK, str_contains_char in E4.
  apply Suit_call_char in E6. split; [exact E4 | apply E6].
Qed.

Lemma Card_init_valid_OK (r s : ascii) :
  In r rank_chars -> In s suit_chars ->
  exists suit, Card_init (VStr (String r (String s EmptyString))) = OK (VCard suit)
               /\ Suit_value suit = String s EmptyString.
Proof.
  unfold rank_chars, suit_chars; simpl.
  intros Hr Hs.
  repeat (destruct Hr as [<- | Hr]; [ | ]); try contradiction;
    (repeat (destruct Hs as [<- | Hs]; [ | ]); try contradiction;
     eexists; split; reflexivity).
Qed.
(** ** PlayerGameState *)

Lemma isinstance_Card (v : value) :
  isinstance v t_Card = true <-> exists suit, v = VCard suit.
Proof.
  split; [destruct v; try discriminate; eauto | intros [suit ->]; reflexivity].
Qed.

Lemma card_or_None_assert (c : value) :
  card_or_None c -> assert_type c t_Card true = OK tt.
Proof. intros [-> | [suit ->]]; reflexivity. Qed.

Lemma PlayerGameState_init_OK (cards folded stack bet pot_share : value) :
  hole_cards cards -> isinstance folded t_bool = true ->
  nonneg_int stack -> nonneg_int bet -> nonneg_int pot_share ->
  PlayerGameState_init cards folded stack bet pot_share
  = OK (VPlayerGameState cards folded stack bet pot_share).
Proof.
  intros (c0 & c1 & -> & H0 & H1) Hf Hs Hb Hp.
  unfold PlayerGameState_init; simpl.
  rewrite (card_or_None_assert _ H0), (card_or_None_assert _ H1); simpl.
  rewrite (proj2 (assert_type_OK folded t_bool tt) Hf); simpl.
  rewrite (proj2 (assert_int_nonneg_OK stack tt) Hs); simpl.
  rewrite (proj2 (assert_int_nonneg_OK bet tt) Hb); simpl.
  rewrite (proj2 (assert_int_nonneg_OK pot_share tt) Hp); simpl.
  reflexivity.
Qed.

Lemma PlayerGameState_init_inv (cards folded stack bet pot_share s : value) :
  PlayerGameState_init cards folded stack bet pot_share = OK s ->
  s = VPlayerGameState cards folded stack bet pot_share
  /\ hole_cards cards /\ isinstance folded t_bool = true
  /\ nonneg_int stack /\ nonneg_int bet /\ nonneg_int pot_share.
Proof.
  unfold PlayerGameState_init. intros H.
  repeat bind_inv H.
  repeat match goal with
         | u : unit |- _ => destruct u
         | E : assert_int_nonneg _ false = OK _ |- _ => apply assert_int_nonneg_OK in E
         | E : assert_type _ _ false = OK _ |- _ => apply assert_type_OK in E
         | E : assert_type _ _ true = OK _ |- _ => apply assert_type_null_OK in E
         | E : assert_ _ = OK _ |- _ => apply assert_OK in E
         end.
  injection H as <-.
  repeat split; try assumption.
  destruct cards as [ | | | | |xs| | | | | | | | | | ]; try discriminate.
  simpl in E0. injection E0 as <-. apply Z.eqb_eq in E1.
  destruct xs as [ | c0 [ | c1 [ | c2 rest]]]; simpl in E1; try lia.
  simpl in E2, E4. injection E2 as <-. injection E4 as <-.
  exists c0, c1. split; [reflexivity | ].
  split; [destruct E3 as [-> | E3] | destruct E5 as [-> | E5]];
    try (now left); right;
    [destruct c0 | destruct c1]; try discriminate; eauto.
Qed.

Lemma is_bool_isinstance (v : value) : is_bool v <-> isinstance v t_bool = true.
Proof.
  split; [intros [b ->]; reflexivity | destruct v; try discriminate; intros _; eexists; reflexivity].
Qed.

Lemma is_all_in_value (cards folded stack bet pot_share : value) (n p : Z) :
  int_value stack = Some n -> int_value pot_share = Some p ->
  is_all_in (VPlayerGameState cards folded stack bet pot_share)
  = OK (VBool ((n =? 0) && (0 <? p))).
Proof.
  intros Hn Hp. unfold is_all_in, eq_int, gt_int.
  assert (Hs : cmp_int stack 0 = Some (Some (n ?= 0)))
    by (destruct stack; try discriminate; injection Hn as <-; reflexivity).
  assert (Hq : cmp_int pot_share 0 = Some (Some (p ?= 0)))
    by (destruct pot_share; try discriminate; injection Hp as <-; reflexivity).
  rewrite Hs, Hq.
  destruct (Z.compare_spec n 0) as [-> | Hlt | Hgt]; simpl.
  - destruct (Z.compare_spec p 0); simpl; f_equal; f_equal; symmetry;
      [apply Z.ltb_ge | apply Z.ltb_ge | apply Z.ltb_lt]; lia.
  - replace (n =? 0) with false by (symmetry; apply Z.eqb_neq; lia). reflexivity.
  - replace (n =? 0) with false by (symmetry; apply Z.eqb_neq; lia). reflexivity.
Qed.

(** C8.  [PlayerGameState] construction with stack [-1] fails, whatever the
    other fields; with otherwise valid fields, stack [0] and pot share [0]
    it succeeds and [is_all_in] returns [False]; with stack [0] and pot
    share [5] it succeeds and [is_all_in] returns [True]; and on every
    constructed [PlayerGameState], [is_all_in] returns [True] exactly when
    the stack is zero and the pot share is positive. *)
Theorem PlayerGameState_stack_and_all_in :
  (forall cards folded bet pot_share,
      fails (PlayerGameState_init cards folded (VInt (-1)) bet pot_share))
  /\ (forall cards folded bet,
         hole_cards cards -> is_bool folded -> nonneg_int bet ->
         exists s, PlayerGameState_init cards folded (VInt 0) bet (VInt 0) = OK s
                   /\ is_all_in s = OK (VBool false))
  /\ (forall cards folded bet,
         hole_cards cards -> is_bool folded -> nonneg_int bet ->
         exists s, PlayerGameState_init cards folded (VInt 0) bet (VInt 5) = OK s
                   /\ is_all_in s = OK (VBool true))
  /\ (forall cards folded stack bet pot_share s,
         PlayerGameState_init cards folded stack bet pot_share = OK s ->
         exists n p, int_value stack = Some n /\ int_value pot_share = Some p
                     /\ is_all_in s = OK (VBool ((n =? 0) && (0 <? p)))).
Proof.
  split; [ | split; [ | split]].
  - intros cards folded bet pot_share.
    apply not_succeeds_fails. intros [s H].
    apply PlayerGameState_init_inv in H as (_ & _ & _ & Hs & _).
    apply nonneg_int_VInt in Hs. lia.
  - intros cards folded bet Hc Hf Hb. eexists. split.
    + apply PlayerGameState_init_OK; try assumption;
        [now apply is_bool_isinstance | now apply nonneg_int_VInt ..].
    + reflexivity.
  - intros cards folded bet Hc Hf Hb. eexists. split.
    + apply PlayerGameState_init_OK; try assumption;
        [now apply is_bool_isinstance | now apply nonneg_int_VInt ..].
    + reflexivity.
  - intros cards folded stack bet pot_share s H.
    apply PlayerGameState_init_inv in H as (-> & _ & _ & (n & Hn & _) & _ & (p & Hp & _)).
    exists n, p. split; [exact Hn | split; [exact Hp | ]].
    now apply is_all_in_value.
Qed.

Lemma PlayerGameState_stack_and_all_in_witness :
  (exists s, PlayerGameState_init (VList [VNone; VCard SPADES]) (VBool false)
               (VInt 0) (VInt 2) (VInt 5) = OK s
             /\ is_all_in s = OK (VBool true))
  /\ (exists n p, int_value (VInt 7) = Some n /\ int_value (VInt 3) = Some p
                  /\ is_all_in (VPlayerGameState (VList [VNone; VNone]) (VBool true)
                                  (VInt 7) (VInt 0) (VInt 3))
                     = OK (VBool ((n =? 0) && (0 <? p)))).
Proof.
  split.
  - apply (proj1 (proj2 (proj2 PlayerGameState_stack_and_all_in))).
    + exists VNone, (VCard SPADES). split; [reflexivity | ].
      split; [now left | right; now exists SPADES].
    + now exists false.
    + exists 2. split; [reflexivity | lia].
  - apply (proj2 (proj2 (proj2 PlayerGameState_stack_and_all_in))
             (VList [VNone; VNone]) (VBool true) (VInt 7) (VInt 0) (VInt 3)).
    reflexivity.
Defined.

(** ** SharedGameState *)

Lemma is_pot_isinstance (v : value) : is_pot v <-> isinstance v t_Pot = true.
Proof.
  split; [intros (a & s & ->); reflexivity
         | destruct v; try discriminate; intros _; do 2 eexists; reflexivity].
Qed.

Lemma len_VList (xs : list value) : len (VList xs) = OK (Z.of_nat (List.length xs)).
Proof. reflexivity. Qed.

(** What [SharedGameState.__init__] checks. *)
Lemma SharedGameState_init_OK_iff
  (pot_total pots board_cards small_blind big_blind s : value) :
  SharedGameState_init pot_total pots board_cards small_blind big_blind = OK s
  <-> s = VSharedGameState pot_total pots board_cards small_blind big_blind
      /\ nonneg_int pot_total
      /\ (exists p ps, pots = VList (p :: ps) /\ is_pot p)
      /\ (exists b bs, board_cards = VList (b :: bs) /\ is_card b
                       /\ (3 <= List.length (b :: bs) <= 5)%nat)
      /\ nonneg_int small_blind /\ nonneg_int big_blind.
Proof.
  unfold SharedGameState_init. split.
  - intros H. repeat bind_inv H.
    repeat match goal with
           | u : unit |- _ => destruct u
           | E : assert_int_nonneg _ false = OK _ |- _ => apply assert_int_nonneg_OK in E
           | E : assert_type _ _ false = OK _ |- _ => apply assert_type_OK in E
           | E : assert_ _ = OK _ |- _ => apply assert_OK in E
           end.
    injection H as <-.
    destruct pots as [ | | | | |ps| | | | | | | | | | ]; try discriminate.
    destruct ps as [ | p ps]; [discriminate | ].
    destruct board_cards as [ | | | | |bs| | | | | | | | | | ]; try discriminate.
    destruct bs as [ | b bs]; [discriminate | ].
    simpl in E2, E7. injection E2 as <-. injection E7 as <-.
    assert (x5 = Z.of_nat (List.length (b :: bs))) as ->
      by (rewrite len_VList in E5; congruence).
    apply andb_true_iff in E6 as [Hlo Hhi].
    apply Z.leb_le in Hlo, Hhi.
    repeat split; try assumption; try lia.
    + exists p, ps. split; [reflexivity | now apply is_pot_isinstance].
    + exists b, bs. split; [reflexivity | ]. split; [now apply isinstance_Card | lia].
  - intros (-> & Ht & (p & ps & -> & Hp) & (b & bs & -> & Hb & Hlen) & Hs & Hbb).
    rewrite (proj2 (assert_int_nonneg_OK pot_total tt) Ht); simpl.
    rewrite (proj2 (assert_type_OK p t_Pot tt) (proj1 (is_pot_isinstance p) Hp)); simpl.
    destruct Hb as [suit ->]; simpl.
    replace ((3 <=? Z.of_nat (S (List.length bs))) && (Z.of_nat (S (List.length bs)) <=? 5))
      with true
      by (symmetry; apply andb_true_iff; split; apply Z.leb_le; simpl in Hlen; lia).
    simpl.
    rewrite (proj2 (assert_int_nonneg_OK small_blind tt) Hs); simpl.
    rewrite (proj2 (assert_int_nonneg_OK big_blind tt) Hbb); simpl.
    reflexivity.
Qed.

(** C7.  With otherwise valid fields (nonnegative pot total and blinds, a
    non-empty list of pots, a list of cards for the board),
    [SharedGameState] construction succeeds exactly when the board has 3, 4
    or 5 cards, and fails for every other length (0, 1, 2, 6 or more). *)
Theorem SharedGameState_board_length
  (pot_total pots small_blind big_blind : value) (board_cards : list value) :
  nonneg_int pot_total -> pot_list pots -> Forall is_card board_cards ->
  nonneg_int small_blind -> nonneg_int big_blind ->
  (succeeds (SharedGameState_init pot_total pots (VList board_cards)
               small_blind big_blind)
   <-> (3 <= List.length board_cards <= 5)%nat)
  /\ (~ (3 <= List.length board_cards <= 5)%nat ->
      fails (SharedGameState_init pot_total pots (VList board_cards)
               small_blind big_blind)).
Proof.
  intros Ht (p & ps & -> & Hps) Hcards Hs Hb.
  assert (Hiff : succeeds (SharedGameState_init pot_total (VList (p :: ps))
                             (VList board_cards) small_blind big_blind)
                 <-> (3 <= List.length board_cards <= 5)%nat).
  { split.
    - intros [s H]. apply SharedGameState_init_OK_iff in H
        as (_ & _ & _ & (b & bs & [= ->] & _ & Hlen) & _). exact Hlen.
    - intros Hlen. eexists. apply SharedGameState_init_OK_iff.
      split; [reflexivity | ]. split; [exact Ht | ].
      split; [exists p, ps; split; [reflexivity | now inversion Hps] | ].
      split; [ | split; assumption].
      destruct board_cards as [ | b bs]; [simpl in Hlen; lia | ].
      exists b, bs. split; [reflexivity | ]. split; [now inversion Hcards | exact Hlen]. }
  split; [exact Hiff | ].
  intros Hlen. apply not_succeeds_fails. now rewrite Hiff.
Qed.

Lemma SharedGameState_board_length_witness :
  (succeeds (SharedGameState_init (VInt 10) (VList [VPot (VInt 10) (VDict [])])
               (VList [VCard HEARTS; VCard DIAMONDS; VCard SPADES; VCard CLUBS])
               (VInt 1) (VInt 2))
   <-> (3 <= 4 <= 5)%nat)
  /\ (~ (3 <= 4 <= 5)%nat ->
      fails (SharedGameState_init (VInt 10) (VList [VPot (VInt 10) (VDict [])])
               (VList [VCard HEARTS; VCard DIAMONDS; VCard SPADES; VCard CLUBS])
               (VInt 1) (VInt 2))).
Proof.
  apply (SharedGameState_board_length (VInt 10) (VList [VPot (VInt 10) (VDict [])])
           (VInt 1) (VInt 2)
           [VCard HEARTS; VCard DIAMONDS; VCard SPADES; VCard CLUBS]).
  - exists 10. split; [reflexivity | lia].
  - exists (VPot (VInt 10) (VDict [])), []. split; [reflexivity | ].
    constructor; [do 2 eexists; reflexivity | constructor].
  - repeat constructor; eexists; reflexivity.
  - exists 1. split; [reflexivity | lia].
  - exists 2. split; [reflexivity | lia].
Defined.

(** ** Pot *)

(** What [Pot.__init__] checks: the amount, and the first item of the
    share mapping when there is one. *)
Lemma Pot_init_OK_iff (amount player_shares s : value) :
  Pot_init amount player_shares = OK s
  <-> s = VPot amount player_shares
      /\ nonneg_int amount
      /\ exists items, player_shares = VDict items
           /\ match items with
              | [] => True
              | (k, v) :: _ => isinstance k t_PlayerId = true /\ nonneg_int v
              end.
Proof.
  unfold Pot_init. split.
  - intros H. bind_inv H. bind_inv H. bind_inv H. bind_inv H.
    destruct x, x0, x1.
    apply assert_int_nonneg_OK in E. apply assert_type_OK in E0.
    destruct player_shares as [ | | | | | |items| | | | | | | | | ]; try discriminate.
    simpl in E2. injection E2 as <-. injection H as <-.
    split; [reflexivity | ]. split; [exact E | ].
    exists items. split; [reflexivity | ].
    destruct items as [ | [k v] rest]; [exact I | ].
    simpl in E1. bind_inv E1. destruct x.
    apply assert_type_OK in E2. apply assert_int_nonneg_OK in E1.
    split; assumption.
  - intros (-> & Ha & items & -> & Hitems).
    rewrite (proj2 (assert_int_nonneg_OK amount tt) Ha); simpl.
    destruct items as [ | [k v] rest]; [reflexivity | ].
    destruct Hitems as [Hk Hv]. simpl.
    rewrite (proj2 (assert_type_OK k t_PlayerId tt) Hk); simpl.
    rewrite (proj2 (assert_int_nonneg_OK v tt) Hv); simpl.
    reflexivity.
Qed.

(** A [PlayerId] is never a key of a dict. *)
Lemma hashable_not_PlayerId (k : value) :
  hashable k = true -> isinstance k t_PlayerId = false.
Proof. destruct k; simpl; congruence. Qed.

(** The check of the first item alone: on a sequence of items that had two
    [PlayerId] keys, a negative second share would pass.  No dict holds such
    keys ([hashable_not_PlayerId]). *)
Remark Pot_init_reads_first_item_only :
  succeeds (Pot_init (VInt 3)
              (VDict [(VPlayerId 1, VInt 4); (VPlayerId 2, VInt (-1))])).
Proof. eexists; reflexivity. Qed.

(** For a share mapping whose keys are hashable, [Pot] construction
    succeeds exactly for a nonnegative amount and the empty mapping: a
    [PlayerId] cannot be hashed, so a non-empty dict is refused at its first
    key. *)
Theorem Pot_init_succeeds_iff (amount : value) (items : list (value * value)) :
  keys_hashable items ->
  (succeeds (Pot_init amount (VDict items))
   <-> nonneg_int amount /\ valid_shares items)
  /\ (Exists (fun kv => negative_int (snd kv)) items ->
      fails (Pot_init amount (VDict items))).
Proof.
  intros Hkeys.
  assert (Hnonempty : forall kv rest, items = kv :: rest ->
                                      ~ succeeds (Pot_init amount (VDict items))).
  { intros [k v] rest -> [s H].
    apply Pot_init_OK_iff in H as (_ & _ & items' & [= <-] & Hk & _).
    inversion Hkeys as [ | ? ? Hh _]; subst.
    apply hashable_not_PlayerId in Hh. cbn [fst] in Hh. congruence. }
  split; [split | ].
  - intros Hs. destruct items as [ | kv rest].
    + destruct Hs as [s H]. apply Pot_init_OK_iff in H as (_ & Ha & _).
      split; [exact Ha | constructor].
    + exfalso. now apply (Hnonempty kv rest).
  - intros [Ha Hvalid]. destruct items as [ | [k v] rest].
    + eexists. apply Pot_init_OK_iff. split; [reflexivity | ].
      split; [exact Ha | ]. exists []. split; [reflexivity | exact I].
    + exfalso. inversion Hvalid as [ | ? ? [Hk _] _]; subst.
      inversion Hkeys as [ | ? ? Hh _]; subst.
      apply hashable_not_PlayerId in Hh. cbn [fst] in Hk, Hh. congruence.
  - intros Hneg. apply not_succeeds_fails.
    destruct items as [ | kv rest]; [inversion Hneg | ].
    now apply (Hnonempty kv rest).
Qed.

Lemma Pot_init_succeeds_iff_witness :
  (succeeds (Pot_init (VInt 7) (VDict [])) <-> nonneg_int (VInt 7) /\ valid_shares [])
  /\ (Exists (fun kv => negative_int (snd kv)) [(VStr "a", VInt 2); (VStr "b", VInt (-1))] ->
      fails (Pot_init (VInt 7) (VDict [(VStr "a", VInt 2); (VStr "b", VInt (-1))]))).
Proof.
  split.
  - apply (proj1 (Pot_init_succeeds_iff (VInt 7) []
                    ltac:(constructor))).
  - apply (proj2 (Pot_init_succeeds_iff (VInt 7)
                    [(VStr "a", VInt 2); (VStr "b", VInt (-1))]
                    ltac:(repeat constructor))).
Defined.

(** ** Card: what the constructor accepts and what it keeps *)

(** C3, as the code has it.  For every valid two-character code, [Card]
    construction succeeds and the card keeps the suit that the second
    character names; for every other string, and for every object that is
    not a string, construction fails. *)
Theorem Card_init_valid_codes (rep : string) :
  (valid_code rep ->
   exists r s suit, rep = String r (String s EmptyString)
                    /\ Card_init (VStr rep) = OK (VCard suit)
                    /\ Suit_value suit = String s EmptyString)
  /\ (~ valid_code rep -> fails (Card_init (VStr rep)))
  /\ (forall v, isinstance v t_str = false -> fails (Card_init v)).
Proof.
  split; [ | split].
  - intros (r & s & -> & Hr & Hs).
    destruct (Card_init_valid_OK r s Hr Hs) as (suit & H & Hv).
    exists r, s, suit. auto.
  - intros Hinvalid. apply not_succeeds_fails. intros [card H].
    apply Hinvalid. now apply Card_init_OK_valid in H.
  - intros v Hv. exists AssertionError.
    unfold Card_init, assert_type. cbn [andb]. rewrite Hv. reflexivity.
Qed.

Lemma Card_init_valid_codes_witness :
  (exists r s suit, "Td" = String r (String s EmptyString)
                    /\ Card_init (VStr "Td") = OK (VCard suit)
                    /\ Suit_value suit = String s EmptyString)
  /\ fails (Card_init (VStr "1h"))
  /\ fails (Card_init (VStr "Ax")).
Proof.
  split; [ | split].
  - apply (proj1 (Card_init_valid_codes "Td")).
    exists "T"%char, "d"%char. split; [reflexivity | ].
    unfold rank_chars, suit_chars; simpl; tauto.
  - apply (proj1 (proj2 (Card_init_valid_codes "1h"))).
    intros (r & s & [= <- <-] & Hr & _).
    unfold rank_chars in Hr; simpl in Hr.
    repeat (destruct Hr as [Hr | Hr]; [discriminate Hr | ]). exact Hr.
  - apply (proj1 (proj2 (Card_init_valid_codes "Ax"))).
    intros (r & s & [= <- <-] & _ & Hs).
    unfold suit_chars in Hs; simpl in Hs.
    repeat (destruct Hs as [Hs | Hs]; [discriminate Hs | ]). exact Hs.
Defined.

(** C3, as stated, fails: ["Ah"] and ["Kh"] are valid codes and construct
    cards with the same attributes ([_suit] alone, the rank is not kept), so
    nothing that reads a card gives back both codes. *)
Lemma Card_reencoding_counterexample :
  valid_code "Ah" /\ valid_code "Kh"
  /\ Card_init (VStr "Ah") = OK (VCard HEARTS)
  /\ Card_init (VStr "Kh") = OK (VCard HEARTS)
  /\ ~ exists encode : value -> string,
         reencodes encode "Ah" /\ reencodes encode "Kh".
Proof.
  split; [ | split; [ | split; [ | split]]].
  - exists "A"%char, "h"%char. unfold rank_chars, suit_chars; simpl; tauto.
  - exists "K"%char, "h"%char. unfold rank_chars, suit_chars; simpl; tauto.
  - reflexivity.
  - reflexivity.
  - intros (encode & (c1 & H1 & E1) & (c2 & H2 & E2)).
    change (Card_init (VStr "Ah")) with (@OK value (VCard HEARTS)) in H1.
    change (Card_init (VStr "Kh")) with (@OK value (VCard HEARTS)) in H2.
    injection H1 as <-. injection H2 as <-.
    rewrite E1 in E2. discriminate E2.
Qed.

(** ** The decoder: storing a player *)

Section DecoderFacts.

Variable uuid_hex : string -> option N.

Lemma PlayerId_init_OK (v k : value) :
  PlayerId_init uuid_hex v = OK k ->
  exists s u, v = VStr s /\ uuid_hex s = Some u /\ k = VPlayerId u.
Proof.
  unfold PlayerId_init. destruct v; try discriminate.
  destruct (uuid_hex s) as [u | ] eqn:Hu; [ | discriminate].
  intros [= <-]. eauto.
Qed.

(** [player_states[player_id] = ...] raises [TypeError]: [player_id] is a
    [PlayerId], and a [PlayerId] cannot be hashed. *)
Lemma dict_setitem_PlayerId (d v : value) (u : N) :
  dict_setitem d (VPlayerId u) v = Raise TypeError.
Proof. destruct d; reflexivity. Qed.

Lemma player_entry_key (json spec k state : value) :
  player_entry uuid_hex json spec = OK (k, state) -> exists u, k = VPlayerId u.
Proof.
  unfold player_entry. intros H. repeat bind_inv H.
  injection H as <- _.
  match goal with
  | E : PlayerId_init _ _ = OK _ |- _ =>
      apply PlayerId_init_OK in E as (s & u & _ & _ & ->)
  end.
  now exists u.
Qed.

(** No turn of the loop of [parse_game_state] completes. *)
Lemma parse_player_fails (json player_states spec : value) :
  fails (parse_player uuid_hex json player_states spec).
Proof.
  unfold parse_player.
  destruct (player_entry uuid_hex json spec) as [[k state] | e] eqn:He.
  - destruct (player_entry_key _ _ _ _ He) as [u ->].
    exists TypeError. simpl. apply dict_setitem_PlayerId.
  - exists e. reflexivity.
Qed.

(** The per-player state is made from the outer payload alone: two
    entries of one payload get the same folded flag, stack, bet, pot share
    and cards. *)
Lemma player_entry_state_from_outer_payload
  (json spec1 spec2 k1 k2 state1 state2 : value) :
  player_entry uuid_hex json spec1 = OK (k1, state1) ->
  player_entry uuid_hex json spec2 = OK (k2, state2) ->
  state1 = state2.
Proof.
  unfold player_entry. intros H1 H2.
  repeat bind_inv H1. repeat bind_inv H2.
  rewrite E1 in E10. injection E10 as <-.
  rewrite E2 in E11. injection E11 as <-.
  congruence.
Qed.

(** Whenever the [players] of a payload run through at least one entry,
    [parse_game_state] raises: the first entry is not stored.  No decoded
    [GameState] has a player entry. *)
Theorem parse_game_state_players_fail (json players spec : value)
  (rest : list value) :
  getitem_str json "players" = OK players ->
  iter players = OK (spec :: rest) ->
  fails (parse_game_state uuid_hex json).
Proof.
  intros Hp Hi. unfold parse_game_state. rewrite Hp; simpl. rewrite Hi; simpl.
  destruct (parse_player_fails json (VDict []) spec) as [e ->].
  exists e. reflexivity.
Qed.

(** C1: the code at the scenario's payload.  For a text [uuid] that [UUID]
    accepts, the entry of the one player is built and the store of it
    raises [TypeError]; [parse_game_state_message] returns no message. *)
Theorem scenario_payload_raises (uuid : string) (u : N) :
  uuid_hex uuid = Some u ->
  player_entry uuid_hex (scenario_game_state uuid) (sdict [("id", VStr uuid)])
  = OK (VPlayerId u,
        VPlayerGameState (VList [VNone; VNone]) (VBool false)
          (VInt 100) (VInt 0) (VInt 0))
  /\ parse_game_state_message uuid_hex (scenario_payload uuid) = Raise TypeError.
Proof.
  intros Hu. split.
  - unfold player_entry. cbn. rewrite Hu. reflexivity.
  - unfold parse_game_state_message, parse_game_state, parse_player, player_entry.
    cbn. rewrite Hu. reflexivity.
Qed.

End DecoderFacts.

Lemma parse_game_state_players_fail_witness :
  fails (parse_game_state uuid_plain_hex
           (sdict [ ("players", VList [sdict [("id", VStr some_uuid)];
                                       sdict [("id", VStr "12345678-1234-5678-1234-567812345678")]]);
                    ("holeCards", VNone); ("folded", VBool false);
                    ("stack", VInt 100); ("bet", VInt 0); ("pot_share", VInt 0);
                    ("pot", VInt 0);
                    ("communityCards", VList [VStr "Ah"; VStr "Kd"; VStr "2s"]);
                    ("smallBlindAmount", VInt 1); ("bigBlindAmount", VInt 2);
                    ("activeplayerId", VStr some_uuid) ])).
Proof.
  eapply (parse_game_state_players_fail uuid_plain_hex); reflexivity.
Defined.

Lemma scenario_payload_raises_witness :
  player_entry uuid_plain_hex (scenario_game_state some_uuid)
    (sdict [("id", VStr some_uuid)])
  = OK (VPlayerId 0x6f1c2a9e3b4d4c5e8f70123456789abc%N,
        VPlayerGameState (VList [VNone; VNone]) (VBool false)
          (VInt 100) (VInt 0) (VInt 0))
  /\ parse_game_state_message uuid_plain_hex (scenario_payload some_uuid)
     = Raise TypeError.
Proof.
  apply (scenario_payload_raises uuid_plain_hex some_uuid). reflexivity.
Defined.

(** ** The decoder: what a payload must hold *)

Lemma getitem_str_OK (v : value) (k : string) (x : value) :
  getitem_str v k = OK x <-> exists items, v = VDict items /\ dict_get items k = Some x.
Proof.
  split.
  - destruct v; try discriminate. simpl.
    destruct (dict_get items k) as [y | ] eqn:Hy; [ | discriminate].
    intros [= <-]. eauto.
  - intros (items & -> & H). simpl. now rewrite H.
Qed.

Lemma getitem_str_field (v : value) (k : string) (x : value) (P : value -> Prop) :
  getitem_str v k = OK x -> P x -> field v k P.
Proof.
  intros H HP. apply getitem_str_OK in H as (items & -> & H).
  exists items, x. auto.
Qed.

Lemma json_value_dict_get (items : list (value * value)) (k : string) (x : value) :
  json_value (VDict items) -> dict_get items k = Some x -> json_value x.
Proof.
  intros H. inversion H as [ | | | | | | items' Hall]; subst. clear H.
  induction Hall as [ | [k' v] rest [_ Hv] _ IH]; simpl; [discriminate | ].
  destruct (eq_str k' k); [intros [= <-]; exact Hv | exact IH].
Qed.

Lemma json_value_getitem_str (v : value) (k : string) (x : value) :
  json_value v -> getitem_str v k = OK x -> json_value x.
Proof.
  intros Hv H. apply getitem_str_OK in H as (items & -> & H).
  eapply json_value_dict_get; eassumption.
Qed.

Lemma Card_init_OK_code (c card : value) :
  Card_init c = OK card -> exists rep, c = VStr rep /\ valid_code rep.
Proof.
  intros H. destruct c; try discriminate H.
  exists s. split; [reflexivity | now apply Card_init_OK_valid in H].
Qed.

Lemma Card_init_OK_card (c card : value) : Card_init c = OK card -> is_card card.
Proof.
  unfold Card_init. intros H. repeat bind_inv H. injection H as <-.
  eexists; reflexivity.
Qed.

Lemma mapM_Card_init_OK (codes cards : list value) :
  mapM Card_init codes = OK cards ->
  Forall (fun c => exists rep, c = VStr rep /\ valid_code rep) codes
  /\ List.length cards = List.length codes
  /\ Forall is_card cards.
Proof.
  revert cards. induction codes as [ | c codes IH]; simpl; intros cards H.
  - injection H as <-. repeat constructor.
  - bind_inv H. bind_inv H. injection H as <-.
    destruct (IH _ E0) as (Hcodes & Hlen & Hcards).
    repeat split.
    + constructor; [now apply Card_init_OK_code in E | exact Hcodes].
    + simpl. now rewrite Hlen.
    + constructor; [now apply Card_init_OK_card in E | exact Hcards].
Qed.

Lemma ActionType_call_json (v a : value) :
  json_value v -> ActionType_call v = OK a -> v = VStr "".
Proof.
  intros Hv. destruct Hv; try discriminate. simpl.
  destruct (String.eqb_spec s ""); [now subst | discriminate].
Qed.

Lemma GameStateMessage_init_OK (action_type game_state action_requested m : value) :
  GameStateMessage_init action_type game_state action_requested = OK m ->
  is_bool action_requested.
Proof.
  unfold GameStateMessage_init. intros H. repeat bind_inv H.
  match goal with
  | E : assert_type action_requested t_bool false = OK _ |- _ =>
      apply assert_type_OK, is_bool_isinstance in E; exact E
  end.
Qed.

Section DecoderRequirements.

Variable uuid_hex : string -> option N.

Lemma parse_game_state_OK_requirements (g s : value) :
  parse_game_state uuid_hex g = OK s -> game_state_requirements uuid_hex g.
Proof.
  unfold parse_game_state. intros H.
  bind_step H as players Hplayers.
  bind_step H as specs Hspecs.
  bind_step H as player_states Hstates.
  bind_step H as pot_total Hpot.
  bind_step H as amount Hamount.
  bind_step H as pot Hpot_init.
  bind_step H as community Hcommunity.
  bind_step H as codes Hcodes.
  bind_step H as cards Hcards.
  bind_step H as small_blind Hsmall.
  bind_step H as big_blind Hbig.
  bind_step H as shared Hshared.
  bind_step H as active Hactive.
  bind_step H as active_player Hid.
  apply SharedGameState_init_OK_iff in Hshared
    as (_ & Htotal & _ & (b & bs & [= Hb] & _ & Hlen) & Hs & Hbb).
  apply mapM_Card_init_OK in Hcards as (Hvalid & Hcount & _).
  apply PlayerId_init_OK in Hid as (txt & u & -> & Hu & _).
  repeat split.
  - eapply getitem_str_field; [exact Hplayers | exact I].
  - eapply getitem_str_field; [exact Hpot | exact Htotal].
  - eapply getitem_str_field; [exact Hcommunity | ].
    exists codes. split; [exact Hcodes | ]. split; [ | exact Hvalid].
    rewrite <- Hcount, Hb. exact Hlen.
  - eapply getitem_str_field; [exact Hsmall | exact Hs].
  - eapply getitem_str_field; [exact Hbig | exact Hbb].
  - eapply getitem_str_field; [exact Hactive | ]. exists txt, u. auto.
Qed.

Lemma parse_game_state_message_OK_requirements (json m : value) :
  json_value json ->
  parse_game_state_message uuid_hex json = OK m ->
  message_requirements uuid_hex json.
Proof.
  unfold parse_game_state_message. intros Hjson H.
  bind_step H as action Haction.
  bind_step H as action_type Htype.
  bind_step H as g Hg.
  bind_step H as game_state Hstate.
  bind_step H as requested Hrequested.
  apply GameStateMessage_init_OK in H.
  split; [ | split].
  - eapply getitem_str_field; [exact Haction | ].
    eapply ActionType_call_json; [ | exact Htype].
    eapply json_value_getitem_str; eassumption.
  - eapply getitem_str_field; [exact Hg | ].
    eapply parse_game_state_OK_requirements; exact Hstate.
  - eapply getitem_str_field; [exact Hrequested | exact H].
Qed.

(** C4, as the code has it.  The decode of a raw payload fails, and returns
    no message, whenever one of the keys [action], [game_state],
    [actionRequested], or in the game state [players], [pot],
    [communityCards], [smallBlindAmount], [bigBlindAmount],
    [activeplayerId], is missing, or [action] is not the empty string, or
    [actionRequested] is not a boolean, or [pot] or a blind amount is not a
    nonnegative integer, or [communityCards] does not yield 3 to 5 valid
    card codes, or [activeplayerId] is not a text that [UUID] accepts.  In
    particular a payload whose game state has no [players] key fails. *)
Theorem decode_fails_without_requirements :
  (forall json, json_value json -> ~ message_requirements uuid_hex json ->
                fails (parse_game_state_message uuid_hex json))
  /\ (forall json items,
         getitem_str json "game_state" = OK (VDict items) ->
         dict_get items "players" = None ->
         fails (parse_game_state_message uuid_hex json)).
Proof.
  split.
  - intros json Hjson Hreq. apply not_succeeds_fails. intros [m H].
    apply Hreq. eapply parse_game_state_message_OK_requirements; eassumption.
  - intros json items Hg Hp. apply not_succeeds_fails. intros [m H].
    unfold parse_game_state_message in H.
    bind_step H as action Haction.
    bind_step H as action_type Htype.
    bind_step H as g Hg'.
    rewrite Hg in Hg'. injection Hg' as <-.
    bind_step H as game_state Hstate.
    apply parse_game_state_OK_requirements in Hstate
      as ((items' & x' & [= <-] & Hx & _) & _).
    congruence.
Qed.

End DecoderRequirements.

Lemma decode_fails_without_requirements_witness :
  fails (parse_game_state_message uuid_plain_hex
           (sdict [ ("action", VStr ""); ("actionRequested", VInt 1);
                    ("game_state", empty_table_game_state some_uuid) ]))
  /\ fails (parse_game_state_message uuid_plain_hex
              (sdict [ ("action", VStr ""); ("actionRequested", VBool true);
                       ("game_state", sdict [("pot", VInt 0)]) ])).
Proof.
  split.
  - apply (proj1 (decode_fails_without_requirements uuid_plain_hex)).
    + repeat (constructor; simpl; try (split; [eexists; reflexivity | ])).
    + intros (_ & _ & (items & x & Hd & Hx & (b & Hb))).
      injection Hd as <-. vm_compute in Hx. injection Hx as <-. discriminate Hb.
  - apply (proj2 (decode_fails_without_requirements uuid_plain_hex)
             _ [(VStr "pot", VInt 0)]); reflexivity.
Defined.

(** C4, as stated, fails: a raw payload without players and without the keys
    [holeCards], [folded], [stack], [bet] and [pot_share] is decoded.  The
    five keys are read in the loop over the players only. *)
Lemma decode_without_player_keys_counterexample :
  json_value (empty_table_payload some_uuid)
  /\ getitem_str (empty_table_game_state some_uuid) "holeCards" = Raise KeyError
  /\ getitem_str (empty_table_game_state some_uuid) "folded" = Raise KeyError
  /\ getitem_str (empty_table_game_state some_uuid) "stack" = Raise KeyError
  /\ getitem_str (empty_table_game_state some_uuid) "bet" = Raise KeyError
  /\ getitem_str (empty_table_game_state some_uuid) "pot_share" = Raise KeyError
  /\ parse_game_state_message uuid_plain_hex (empty_table_payload some_uuid)
     = OK (VGameStateMessage VActionType_TODO
             (VGameState
                (VSharedGameState (VInt 0) (VList [VPot (VInt 0) (VDict [])])
                   (VList [VCard HEARTS; VCard DIAMONDS; VCard SPADES])
                   (VInt 1) (VInt 2))
                (VDict []) FAKE_PLAYER_ID FAKE_PLAYER_ID FAKE_PLAYER_ID
                (VPlayerId 0x6f1c2a9e3b4d4c5e8f70123456789abc%N))
             (VBool true)).
Proof.
  split.
  - repeat (constructor; simpl; try (split; [eexists; reflexivity | ])).
  - repeat split; vm_compute; reflexivity.
Qed.

(** Values of another shape that the decode takes: a [str] and a [dict] are
    iterable like a [list], and a [bool] is an [int]. *)
Remark decode_takes_other_shapes :
  succeeds (parse_game_state_message uuid_plain_hex
              (sdict [ ("action", VStr ""); ("actionRequested", VBool false);
                       ("game_state",
                        sdict [ ("players", VStr "");
                                ("pot", VBool true);
                                ("communityCards",
                                 sdict [("Ah", VInt 1); ("Kd", VInt 2); ("2s", VInt 3)]);
                                ("smallBlindAmount", VBool false);
                                ("bigBlindAmount", VInt 2);
                                ("activeplayerId", VStr some_uuid) ]) ])).
Proof. eexists. vm_compute. reflexivity. Qed.

Lemma field_getitem_str (v : value) (k : string) (P : value -> Prop) :
  field v k P -> exists x, getitem_str v k = OK x /\ P x.
Proof.
  intros (items & x & -> & Hx & HP). exists x. simpl. now rewrite Hx.
Qed.

Lemma mapM_Card_init_valid (codes : list value) :
  Forall (fun c => exists rep, c = VStr rep /\ valid_code rep) codes ->
  exists cards, mapM Card_init codes = OK cards
                /\ List.length cards = List.length codes
                /\ Forall is_card cards.
Proof.
  induction 1 as [ | c codes (rep & -> & r & s & -> & Hr & Hs) _ (cards & IH & Hlen & Hcards)].
  - exists []. repeat constructor.
  - destruct (Card_init_valid_OK r s Hr Hs) as (suit & Hinit & _).
    exists (VCard suit :: cards). cbn [mapM]. rewrite Hinit, IH. simpl.
    repeat split; [now rewrite Hlen | ].
    constructor; [eexists; reflexivity | exact Hcards].
Qed.

Section DecoderSuccess.

Variable uuid_hex : string -> option N.

(** The converse, for a payload without players: the requirements are all
    that the decode needs. *)
Lemma parse_game_state_succeeds (g players : value) :
  game_state_requirements uuid_hex g ->
  getitem_str g "players" = OK players -> iter players = OK [] ->
  succeeds (parse_game_state uuid_hex g).
Proof.
  intros (_ & Hpot & Hboard & Hsmall & Hbig & Hactive) Hplayers Hiter.
  apply field_getitem_str in Hpot as (pot & Hpot & Hpot_ok).
  apply field_getitem_str in Hboard as (community & Hboard & codes & Hcodes & Hlen & Hvalid).
  apply field_getitem_str in Hsmall as (small & Hsmall & Hsmall_ok).
  apply field_getitem_str in Hbig as (big & Hbig & Hbig_ok).
  apply field_getitem_str in Hactive as (active & Hactive & txt & u & -> & Hu).
  destruct (mapM_Card_init_valid codes Hvalid) as (cards & Hcards & Hcount & Hall).
  unfold parse_game_state.
  rewrite Hplayers; cbn [bind]. rewrite Hiter; cbn [bind for_each].
  rewrite Hpot; cbn [bind].
  assert (Hp : Pot_init pot (VDict []) = OK (VPot pot (VDict []))).
  { apply Pot_init_OK_iff. split; [reflexivity | ]. split; [exact Hpot_ok | ].
    exists []. split; [reflexivity | exact I]. }
  rewrite Hp; cbn [bind].
  rewrite Hboard; cbn [bind]. rewrite Hcodes; cbn [bind]. rewrite Hcards; cbn [bind].
  rewrite Hsmall, Hbig; cbn [bind].
  assert (Hs : SharedGameState_init pot (VList [VPot pot (VDict [])]) (VList cards)
                 small big
               = OK (VSharedGameState pot (VList [VPot pot (VDict [])]) (VList cards)
                       small big)).
  { apply SharedGameState_init_OK_iff. split; [reflexivity | ].
    split; [exact Hpot_ok | ].
    split; [do 2 eexists; split; [reflexivity | do 2 eexists; reflexivity] | ].
    split; [ | split; assumption].
    destruct cards as [ | b bs]; [simpl in Hcount; lia | ].
    exists b, bs. split; [reflexivity | ].
    split; [now inversion Hall | rewrite Hcount; exact Hlen]. }
  rewrite Hs; cbn [bind]. rewrite Hactive; cbn [bind].
  unfold PlayerId_init. rewrite Hu; cbn [bind].
  eexists. reflexivity.
Qed.

Lemma parse_game_state_message_succeeds (json g players : value) :
  message_requirements uuid_hex json ->
  getitem_str json "game_state" = OK g ->
  getitem_str g "players" = OK players -> iter players = OK [] ->
  succeeds (parse_game_state_message uuid_hex json).
Proof.
  intros (Haction & Hstate & Hrequested) Hg Hplayers Hiter.
  apply field_getitem_str in Haction as (action & Haction & ->).
  apply field_getitem_str in Hstate as (g' & Hg' & Hreq).
  rewrite Hg in Hg'. injection Hg' as <-.
  apply field_getitem_str in Hrequested as (requested & Hrequested & b & ->).
  destruct (parse_game_state_succeeds g players Hreq Hplayers Hiter) as [s Hs].
  unfold parse_game_state_message.
  rewrite Haction; cbn [bind ActionType_call String.eqb].
  rewrite Hg; cbn [bind]. rewrite Hs; cbn [bind]. rewrite Hrequested; cbn [bind].
  assert (Hgs : isinstance s t_GameState = true).
  { unfold parse_game_state in Hs. repeat bind_inv Hs.
    unfold GameState_init in Hs. repeat bind_inv Hs. injection Hs as <-. reflexivity. }
  unfold GameStateMessage_init, assert_type. cbn [andb]. rewrite Hgs. 
  eexists. reflexivity.
Qed.

End DecoderSuccess.

(** ** The dispatch loop *)

Lemma eq_str_false (v : value) (s : string) : v <> VStr s -> eq_str v s = false.
Proof.
  intros H. destruct v; try reflexivity. simpl.
  destruct (String.eqb_spec s0 s); [subst; contradiction | reflexivity].
Qed.

Section ClientFacts.

Variable uuid_hex : string -> option N.
Variable json_loads : string -> result value.
Variable Bot : Type.
Variable handle_game_state_message : Bot -> value -> Bot * result unit.

Let turn := on_message uuid_hex json_loads Bot handle_game_state_message.
Let loop := do_client uuid_hex json_loads Bot handle_game_state_message.

(** C9.  On a received payload whose [event] key is present and is not
    ["gameState"], a turn of the loop prints the text and logs one warning,
    with the event and the rest of the payload; the bot is not called and
    is unchanged; nothing is raised, whatever the rest of the payload
    holds; and the loop goes on with the next text. *)
Theorem unknown_event_is_skipped
  (c : client Bot) (body : string) (items : list (value * value))
  (event : value) (rest : list string) :
  json_loads body = OK (VDict items) ->
  dict_get items "event" = Some event ->
  event <> VStr "gameState" ->
  let c' := Client (bot c)
              (trace c ++ [Printed body;
                           Warned event (VDict (dict_remove items "event"))]) in
  turn c body = (c', OK tt)
  /\ loop c (body :: rest) = loop c' rest.
Proof.
  intros Hloads Hevent Hne c'.
  assert (H : turn c body = (c', OK tt)).
  { unfold turn, on_message. rewrite Hloads. simpl.
    rewrite Hevent. rewrite (eq_str_false _ _ Hne).
    unfold c', emit. simpl. rewrite <- app_assoc. reflexivity. }
  split; [exact H | ].
  unfold loop. simpl. fold turn. rewrite H. reflexivity.
Qed.

(** C10.  On a received payload object without the [event] key,
    [data.pop("event")] raises [KeyError] after the text is printed, and
    the loop ends with that exception: the texts that follow are not
    received. *)
Theorem missing_event_key_ends_loop
  (c : client Bot) (body : string) (items : list (value * value))
  (rest : list string) :
  json_loads body = OK (VDict items) ->
  dict_get items "event" = None ->
  turn c body = (emit c (Printed body), Raise KeyError)
  /\ loop c (body :: rest) = (emit c (Printed body), KeyError).
Proof.
  intros Hloads Hevent.
  assert (H : turn c body = (emit c (Printed body), Raise KeyError)).
  { unfold turn, on_message. rewrite Hloads. simpl.
    rewrite Hevent. reflexivity. }
  split; [exact H | ].
  unfold loop. simpl. fold turn. rewrite H. reflexivity.
Qed.

End ClientFacts.

Lemma unknown_event_is_skipped_witness :
  on_message uuid_plain_hex example_loads nat counting_bot (Client 0%nat []) ping_text
  = (Client 0%nat [Printed ping_text; Warned (VStr "ping") (VDict [])], OK tt)
  /\ do_client uuid_plain_hex example_loads nat counting_bot (Client 0%nat [])
       [ping_text; ping_text]
     = do_client uuid_plain_hex example_loads nat counting_bot
         (Client 0%nat [Printed ping_text; Warned (VStr "ping") (VDict [])])
         [ping_text].
Proof.
  apply (unknown_event_is_skipped uuid_plain_hex example_loads nat counting_bot
           (Client 0%nat []) ping_text [(VStr "event", VStr "ping")] (VStr "ping")
           [ping_text]).
  - reflexivity.
  - reflexivity.
  - discriminate.
Defined.

Lemma missing_event_key_ends_loop_witness :
  on_message uuid_plain_hex example_loads nat counting_bot (Client 0%nat []) no_event_text
  = (Client 0%nat [Printed no_event_text], Raise KeyError)
  /\ do_client uuid_plain_hex example_loads nat counting_bot (Client 0%nat [])
       [no_event_text; ping_text]
     = (Client 0%nat [Printed no_event_text], KeyError).
Proof.
  apply (missing_event_key_ends_loop uuid_plain_hex example_loads nat counting_bot
           (Client 0%nat []) no_event_text [(VStr "action", VStr "")] [ping_text]).
  - reflexivity.
  - reflexivity.
Defined.

(** ** Containers that the caller still holds *)

Module SharedFacts.
Import Shared.

Lemma read_mutate (h : heap) (l : loc) (contents : value) :
  read (mutate h l contents) l = OK contents.
Proof. unfold read, mutate. now rewrite lookup_insert_eq. Qed.

Lemma read_mutate_other (h : heap) (l l' : loc) (contents : value) :
  l <> l' -> read (mutate h l contents) l' = read h l'.
Proof. intros Hne. unfold read, mutate. now rewrite lookup_insert_ne. Qed.

Lemma read_OK_dom (h : heap) (l : loc) (v : value) :
  read h l = OK v -> l ∈ dom h.
Proof.
  unfold read. destruct (h !! l) as [x | ] eqn:Hx; [ | discriminate].
  intros _. apply elem_of_dom. now exists x.
Qed.

Lemma alloc_fresh (h : heap) (v : value) : fst (alloc h v) ∉ dom h.
Proof. unfold alloc; simpl. apply is_fresh. Qed.

Lemma read_alloc (h : heap) (v : value) :
  read (snd (alloc h v)) (fst (alloc h v)) = OK v.
Proof. unfold alloc, read; simpl. now rewrite lookup_insert_eq. Qed.

Lemma read_alloc_other (h : heap) (v : value) (l : loc) :
  l ∈ dom h -> read (snd (alloc h v)) l = read h l.
Proof.
  intros Hl. unfold alloc, read; simpl.
  rewrite lookup_insert_ne; [reflexivity | ].
  intros Heq. apply (is_fresh (dom h)). now rewrite Heq.
Qed.

(** What an accessor returns is a copy of what the attribute's container
    holds when it is called. *)
Lemma returned_copy (copy : value -> result value) (h : heap) (l : loc) :
  returned (return_copy copy h l) = do xs <- read h l; copy xs.
Proof.
  unfold returned, return_copy.
  destruct (read h l) as [xs | e]; [ | reflexivity]. simpl.
  destruct (copy xs) as [new | e]; [ | reflexivity]. simpl.
  apply read_alloc.
Qed.

(** The part of the claim that holds: the container an accessor returned is
    a new one, and what the caller does to it does not reach the attribute
    it was copied from. *)
Lemma return_copy_is_new
  (copy : value -> result value) (h h' : heap) (l new : loc) (contents : value) :
  return_copy copy h l = OK (new, h') ->
  new <> l
  /\ returned (return_copy copy (mutate h' new contents) l)
     = returned (return_copy copy h l).
Proof.
  intros H. unfold return_copy in H.
  bind_step H as xs Hxs. bind_step H as c Hc.
  assert (Ha : alloc h c = (new, h')) by congruence.
  assert (Hl : new = fst (alloc h c)) by (rewrite Ha; reflexivity).
  assert (Hh : h' = snd (alloc h c)) by (rewrite Ha; reflexivity).
  clear H Ha.
  assert (Hne : new <> l).
  { intros Heq. apply (alloc_fresh h c). rewrite <- Hl, Heq.
    eapply read_OK_dom; exact Hxs. }
  split; [exact Hne | ].
  rewrite !returned_copy.
  rewrite read_mutate_other by exact Hne.
  rewrite Hh, read_alloc_other by (eapply read_OK_dom; exact Hxs).
  reflexivity.
Qed.

Lemma get_cards_returns_a_copy
  (h h' : heap) (self : PlayerGameState) (l : loc) (contents : value) :
  get_cards h self = OK (l, h') ->
  returned (get_cards (mutate h' l contents) self) = returned (get_cards h self).
Proof. intros H. now apply return_copy_is_new. Qed.

Lemma get_player_shares_returns_a_copy
  (h h' : heap) (self : Pot) (l : loc) (contents : value) :
  get_player_shares h self = OK (l, h') ->
  returned (get_player_shares (mutate h' l contents) self)
  = returned (get_player_shares h self).
Proof. intros H. now apply return_copy_is_new. Qed.

Lemma get_pots_returns_a_copy
  (h h' : heap) (self : SharedGameState) (l : loc) (contents : value) :
  get_pots h self = OK (l, h') ->
  returned (get_pots (mutate h' l contents) self) = returned (get_pots h self).
Proof. intros H. now apply return_copy_is_new. Qed.

Lemma get_board_cards_returns_a_copy
  (h h' : heap) (self : SharedGameState) (l : loc) (contents : value) :
  get_board_cards h self = OK (l, h') ->
  returned (get_board_cards (mutate h' l contents) self)
  = returned (get_board_cards h self).
Proof. intros H. now apply return_copy_is_new. Qed.

Lemma get_player_states_returns_a_copy
  (h h' : heap) (self : GameState) (l : loc) (contents : value) :
  get_player_states h self = OK (l, h') ->
  returned (get_player_states (mutate h' l contents) self)
  = returned (get_player_states h self).
Proof. intros H. now apply return_copy_is_new. Qed.

(** [Pot] copies the dict it is given: what the caller does to that dict
    afterwards does not reach the pot. *)
Lemma Pot_new_copies
  (h h' : heap) (amount : value) (player_shares : loc) (self : Pot)
  (contents : value) :
  Pot_new h amount player_shares = OK (self, h') ->
  returned (get_player_shares (mutate h' player_shares contents) self)
  = returned (get_player_shares h' self).
Proof.
  intros H. unfold Pot_new in H.
  bind_step H as d Hd. bind_step H as pot Hpot. bind_step H as copy Hcopy.
  destruct (alloc h copy) as [l h''] eqn:Halloc.
  injection H as <- <-.
  unfold get_player_shares. rewrite !returned_copy. cbn [_player_shares].
  rewrite read_mutate_other; [reflexivity | ].
  intros Heq. apply (alloc_fresh h copy). rewrite Halloc; simpl. rewrite <- Heq.
  eapply read_OK_dom; exact Hd.
Qed.

(** C5: the code at a container passed to a constructor.
    [PlayerGameState], [SharedGameState] and [GameState] keep the list or
    dict they were given, not a copy: once the caller has given it other
    contents, [get_cards], [get_pots], [get_board_cards] and
    [get_player_states] return those contents. *)
Theorem constructors_keep_the_callers_container :
  (forall h cards folded stack bet pot_share self contents,
      PlayerGameState_new h cards folded stack bet pot_share = OK self ->
      returned (get_cards (mutate h cards contents) self) = list_copy contents)
  /\ (forall h pot_total pots board_cards small_blind big_blind self contents,
         SharedGameState_new h pot_total pots board_cards small_blind big_blind
         = OK self ->
         returned (get_pots (mutate h pots contents) self) = list_copy contents
         /\ returned (get_board_cards (mutate h board_cards contents) self)
            = list_copy contents)
  /\ (forall h shared_state player_states dealer small big active self contents,
         GameState_new h shared_state player_states dealer small big active
         = OK self ->
         returned (get_player_states (mutate h player_states contents) self)
         = dict_copy contents).
Proof.
  split; [ | split].
  - intros h cards folded stack bet pot_share self contents H.
    unfold PlayerGameState_new in H.
    bind_step H as xs Hxs. bind_step H as s Hs. injection H as <-.
    unfold get_cards. rewrite returned_copy. cbn [_cards]. now rewrite read_mutate.
  - intros h pot_total pots board_cards small_blind big_blind self contents H.
    unfold SharedGameState_new in H.
    bind_step H as ps Hps. bind_step H as bs Hbs. bind_step H as s Hs.
    injection H as <-.
    unfold get_pots, get_board_cards. rewrite !returned_copy.
    cbn [_pots _board_cards]. now rewrite !read_mutate.
  - intros h shared_state player_states dealer small big active self contents H.
    unfold GameState_new in H.
    bind_step H as d Hd. bind_step H as s Hs. injection H as <-.
    unfold get_player_states. rewrite returned_copy. cbn [_player_states].
    now rewrite read_mutate.
Qed.

Lemma constructors_keep_the_callers_container_witness :
  PlayerGameState_new callers_heap 0%nat (VBool false) (VInt 100) (VInt 0) (VInt 0)
  = OK callers_player
  /\ returned (get_cards callers_heap callers_player) = OK (VList [VNone; VNone])
  /\ returned (get_cards (mutate callers_heap 0%nat (VList [VCard HEARTS]))
                 callers_player)
     = OK (VList [VCard HEARTS]).
Proof.
  split; [reflexivity | ]. split; [reflexivity | ].
  apply (proj1 constructors_keep_the_callers_container
           callers_heap 0%nat (VBool false) (VInt 100) (VInt 0) (VInt 0)).
  reflexivity.
Defined.

End SharedFacts.

(** * Further properties of the library *)

(** ** util.py: the assertion helpers *)

(** X1.  [null_ok=True] adds [None] and nothing else: each of the four
    helpers accepts [None] with it, refuses [None] without it, and treats
    every other object the same with and without it. *)
Theorem null_ok_adds_None_only :
  (forall t, assert_type VNone t true = OK tt
             /\ assert_type VNone t false = Raise AssertionError)
  /\ (assert_int_nonneg VNone true = OK tt
      /\ assert_int_nonneg VNone false = Raise AssertionError)
  /\ (assert_int_pos VNone true = OK tt
      /\ assert_int_pos VNone false = Raise AssertionError)
  /\ (assert_str_nonempty VNone true = OK tt
      /\ assert_str_nonempty VNone false = Raise AssertionError)
  /\ (forall v t, v <> VNone ->
                  assert_type v t true = assert_type v t false
                  /\ assert_int_nonneg v true = assert_int_nonneg v false
                  /\ assert_int_pos v true = assert_int_pos v false
                  /\ assert_str_nonempty v true = assert_str_nonempty v false).
Proof.
  split; [ | split; [ | split; [ | split]]]; try (split; reflexivity).
  - intros t. split; [reflexivity | destruct t; reflexivity].
  - intros v t Hv.
    unfold assert_type, assert_int_nonneg, assert_int_pos, assert_str_nonempty.
    destruct v; try contradiction; repeat split; reflexivity.
Qed.

Lemma null_ok_adds_None_only_witness :
  assert_type (VInt 3) t_Card true = assert_type (VInt 3) t_Card false
  /\ assert_int_nonneg (VInt 3) true = assert_int_nonneg (VInt 3) false
  /\ assert_int_pos (VInt 3) true = assert_int_pos (VInt 3) false
  /\ assert_str_nonempty (VInt 3) true = assert_str_nonempty (VInt 3) false.
Proof.
  apply (proj2 (proj2 (proj2 (proj2 null_ok_adds_None_only))) (VInt 3) t_Card).
  discriminate.
Defined.

(** X2.  What the two integer helpers accept.  [assert_int_nonneg] accepts
    exactly the [int] objects (a [bool] is one, [True] being 1 and [False]
    0) that are at least 0, and [assert_int_pos] exactly those that are
    greater than 0; so [assert_int_pos] accepts what [assert_int_nonneg]
    accepts except [0] and [False], and neither accepts a [float], a [str]
    or [None]. *)
Theorem integer_helpers_accept (v : value) :
  (assert_int_nonneg v false = OK tt <-> exists n, int_value v = Some n /\ 0 <= n)
  /\ (assert_int_pos v false = OK tt <-> exists n, int_value v = Some n /\ 0 < n)
  /\ (assert_int_pos v false = OK tt
      <-> assert_int_nonneg v false = OK tt /\ v <> VInt 0 /\ v <> VBool false)
  /\ (int_value v = None ->
      assert_int_nonneg v false = Raise AssertionError
      /\ assert_int_pos v false = Raise AssertionError).
Proof.
  assert (Hpos : assert_int_pos v false = OK tt <-> exists n, int_value v = Some n /\ 0 < n).
  { unfold assert_int_pos; simpl.
    destruct v as [ |b|n| | | | | | | | | | | | | ]; simpl;
      try (split; [discriminate | intros (n' & H & _); discriminate]).
    - destruct b; simpl.
      + split; [intros _; exists 1; split; [reflexivity | lia] | reflexivity].
      + split; [discriminate | intros (n' & [= <-] & Hn); lia].
    - unfold gt_int; simpl. split.
      + intros H. exists n. split; [reflexivity | ].
        destruct (Z.compare_spec n 0); simpl in H; [discriminate | discriminate | lia].
      + intros (n' & [= <-] & Hn).
        destruct (Z.compare_spec n 0); simpl; [lia | lia | reflexivity]. }
  split; [apply assert_int_nonneg_OK | ]. split; [exact Hpos | ]. split.
  - rewrite Hpos, (assert_int_nonneg_OK v tt). unfold nonneg_int. split.
    + intros (n & Hn & Hlt). split; [exists n; split; [exact Hn | lia] | ].
      split; intros ->; simpl in Hn; injection Hn as <-; lia.
    + intros ((n & Hn & Hle) & H0 & Hf). exists n. split; [exact Hn | ].
      destruct v; try discriminate; simpl in Hn; injection Hn as <-.
      * destruct b; simpl; [lia | congruence].
      * assert (n0 <> 0) by congruence. lia.
  - intros Hnone. destruct v; try discriminate; split; reflexivity.
Qed.

Lemma integer_helpers_accept_witness :
  assert_int_nonneg (VFloat (FFinite 1 0)) false = Raise AssertionError
  /\ assert_int_pos (VFloat (FFinite 1 0)) false = Raise AssertionError.
Proof.
  apply (proj2 (proj2 (proj2 (integer_helpers_accept (VFloat (FFinite 1 0)))))).
  reflexivity.
Defined.

(** ** state.py: identifiers and suits *)

Section PlayerIdFacts.

Variable uuid_hex : string -> option N.

(** X3.  Two [PlayerId]s made from two texts are equal ([__eq__]) exactly
    when [UUID] reads the same identifier from both texts, whatever the
    spelling; and a [PlayerId] is equal to no object of another class. *)
Theorem PlayerId_eq_by_identifier (s1 s2 : string) (p1 p2 : value) :
  PlayerId_init uuid_hex (VStr s1) = OK p1 ->
  PlayerId_init uuid_hex (VStr s2) = OK p2 ->
  (PlayerId_eq p1 p2 = true <-> uuid_hex s1 = uuid_hex s2)
  /\ PlayerId_eq p1 p1 = true
  /\ PlayerId_eq p1 p2 = PlayerId_eq p2 p1
  /\ (forall v, isinstance v t_PlayerId = false -> PlayerId_eq p1 v = false).
Proof.
  intros H1 H2.
  apply PlayerId_init_OK in H1 as (t1 & u1 & [= <-] & Hu1 & ->).
  apply PlayerId_init_OK in H2 as (t2 & u2 & [= <-] & Hu2 & ->).
  rewrite Hu1, Hu2. unfold PlayerId_eq; simpl.
  split; [ | split; [ | split]].
  - rewrite N.eqb_eq. split; [now intros -> | now intros [= ->]].
  - apply N.eqb_refl.
  - apply N.eqb_sym.
  - intros v Hv. now rewrite Hv.
Qed.

End PlayerIdFacts.

Lemma PlayerId_eq_by_identifier_witness :
  (PlayerId_eq (VPlayerId 0x6f1c2a9e3b4d4c5e8f70123456789abc%N)
     (VPlayerId 0x6f1c2a9e3b4d4c5e8f70123456789abc%N) = true
   <-> uuid_plain_hex some_uuid = uuid_plain_hex "6F1C2A9E3B4D4C5E8F70123456789ABC")
  /\ PlayerId_eq (VPlayerId 0x6f1c2a9e3b4d4c5e8f70123456789abc%N)
       (VPlayerId 0x6f1c2a9e3b4d4c5e8f70123456789abc%N) = true
  /\ PlayerId_eq (VPlayerId 0x6f1c2a9e3b4d4c5e8f70123456789abc%N)
       (VPlayerId 0x6f1c2a9e3b4d4c5e8f70123456789abc%N)
     = PlayerId_eq (VPlayerId 0x6f1c2a9e3b4d4c5e8f70123456789abc%N)
         (VPlayerId 0x6f1c2a9e3b4d4c5e8f70123456789abc%N)
  /\ (forall v, isinstance v t_PlayerId = false ->
                PlayerId_eq (VPlayerId 0x6f1c2a9e3b4d4c5e8f70123456789abc%N) v = false).
Proof.
  apply (PlayerId_eq_by_identifier uuid_plain_hex some_uuid
           "6F1C2A9E3B4D4C5E8F70123456789ABC"); reflexivity.
Defined.

(** X4.  [Suit(m.value)] is [m] for each of the four members, and a text
    that [Suit] accepts is the value of the member it returns: the four
    values are distinct, so value and member determine each other. *)
Theorem Suit_value_round_trip :
  (forall m, Suit_call (VStr (Suit_value m)) = OK m)
  /\ (forall t m, Suit_call (VStr t) = OK m -> t = Suit_value m)
  /\ (forall m m', Suit_value m = Suit_value m' -> m = m').
Proof.
  split; [ | split].
  - intros []; reflexivity.
  - intros t m. unfold Suit_call.
    repeat match goal with
           | |- context [String.eqb ?a ?b] => destruct (String.eqb_spec a b) as [-> | _]
           end;
      intros [= <-]; reflexivity.
  - intros [] []; simpl; intros H; try reflexivity; discriminate H.
Qed.

Lemma Suit_value_round_trip_witness :
  "s" = Suit_value SPADES /\ SPADES = SPADES.
Proof.
  split.
  - apply (proj1 (proj2 Suit_value_round_trip) "s" SPADES). reflexivity.
  - apply (proj2 (proj2 Suit_value_round_trip) SPADES SPADES). reflexivity.
Defined.

(** ** state.py: what the constructors check *)

(** X5.  [PlayerGameState] construction succeeds exactly when [cards] is a
    list of two entries, each a [Card] or [None] (one known card beside an
    unknown one is accepted), [folded] is a [bool], and [stack], [bet] and
    [pot_share] are nonnegative integers. *)
Theorem PlayerGameState_init_accepts (cards folded stack bet pot_share : value) :
  succeeds (PlayerGameState_init cards folded stack bet pot_share)
  <-> hole_cards cards /\ is_bool folded
      /\ nonneg_int stack /\ nonneg_int bet /\ nonneg_int pot_share.
Proof.
  split.
  - intros [s H]. apply PlayerGameState_init_inv in H
      as (_ & Hc & Hf & Hs & Hb & Hp).
    apply is_bool_isinstance in Hf. auto.
  - intros (Hc & Hf & Hs & Hb & Hp). eexists.
    apply PlayerGameState_init_OK; try assumption. now apply is_bool_isinstance.
Qed.

(** X6.  [SharedGameState] construction looks at the first pot and the
    first board card only: it succeeds exactly when the amounts are
    nonnegative integers, [pots] is a list that starts with a [Pot], and
    [board_cards] is a list of 3 to 5 entries that starts with a [Card].  What
    follows the first entry of either list does not matter, so a board of a
    card and two objects of any kind is accepted. *)
Theorem SharedGameState_init_checks_first_items
  (pot_total small_blind big_blind : value) :
  (forall pots board_cards,
      succeeds (SharedGameState_init pot_total pots board_cards small_blind big_blind)
      <-> nonneg_int pot_total
          /\ (exists p ps, pots = VList (p :: ps) /\ is_pot p)
          /\ (exists b bs, board_cards = VList (b :: bs) /\ is_card b
                           /\ (3 <= List.length (b :: bs) <= 5)%nat)
          /\ nonneg_int small_blind /\ nonneg_int big_blind)
  /\ (forall p ps ps' b bs bs',
         List.length bs = List.length bs' ->
         succeeds (SharedGameState_init pot_total (VList (p :: ps))
                     (VList (b :: bs)) small_blind big_blind) ->
         succeeds (SharedGameState_init pot_total (VList (p :: ps'))
                     (VList (b :: bs')) small_blind big_blind)).
Proof.
  assert (Hiff : forall pots board_cards,
             succeeds (SharedGameState_init pot_total pots board_cards
                         small_blind big_blind)
             <-> nonneg_int pot_total
                 /\ (exists p ps, pots = VList (p :: ps) /\ is_pot p)
                 /\ (exists b bs, board_cards = VList (b :: bs) /\ is_card b
                                  /\ (3 <= List.length (b :: bs) <= 5)%nat)
                 /\ nonneg_int small_blind /\ nonneg_int big_blind).
  { intros pots board_cards. split.
    - intros [s H]. apply SharedGameState_init_OK_iff in H as (_ & H). exact H.
    - intros H. eexists. apply SharedGameState_init_OK_iff.
      split; [reflexivity | exact H]. }
  split; [exact Hiff | ].
  intros p ps ps' b bs bs' Hlen H.
  apply Hiff in H as (Ht & (p0 & ps0 & [= <- <-] & Hp)
                      & (b0 & bs0 & [= <- <-] & Hb & Hn) & Hs & Hbb).
  apply Hiff. split; [exact Ht | ].
  split; [exists p, ps'; auto | ].
  split; [ | auto].
  exists b, bs'. split; [reflexivity | ]. split; [exact Hb | ].
  simpl in *. lia.
Qed.

Lemma SharedGameState_init_checks_first_items_witness :
  succeeds (SharedGameState_init (VInt 0)
              (VList [VPot (VInt 0) (VDict []); VStr "not a pot"])
              (VList [VCard HEARTS; VNone; VInt 7]) (VInt 1) (VInt 2)).
Proof.
  apply (proj2 (SharedGameState_init_checks_first_items (VInt 0) (VInt 1) (VInt 2))
           (VPot (VInt 0) (VDict [])) [] [VStr "not a pot"]
           (VCard HEARTS) [VCard SPADES; VCard CLUBS] [VNone; VInt 7]).
  - reflexivity.
  - eexists. reflexivity.
Defined.

(** What [GameState.__init__] checks. *)
Lemma GameState_init_OK_iff
  (shared_state player_states dealer small big active s : value) :
  GameState_init shared_state player_states dealer small big active = OK s
  <-> s = VGameState shared_state player_states dealer small big active
      /\ isinstance shared_state t_SharedGameState = true
      /\ (exists items, player_states = VDict items
            /\ match items with
               | [] => True
               | (k, v) :: _ => isinstance k t_PlayerId = true
                                /\ isinstance v t_PlayerGameState = true
               end)
      /\ isinstance dealer t_PlayerId = true
      /\ isinstance small t_PlayerId = true
      /\ isinstance big t_PlayerId = true
      /\ (active = VNone \/ isinstance active t_PlayerId = true).
Proof.
  unfold GameState_init. split.
  - intros H.
    bind_step H as u1 Hshared. bind_step H as u2 Hdict. bind_step H as u3 Hfirst.
    bind_step H as u4 Hd. bind_step H as u5 Hs. bind_step H as u6 Hb.
    bind_step H as u7 Ha. injection H as <-.
    apply assert_type_OK in Hshared, Hdict, Hd, Hs, Hb.
    apply assert_type_null_OK in Ha.
    repeat split; try assumption.
    destruct player_states as [ | | | | | |items| | | | | | | | | ]; try discriminate.
    exists items. split; [reflexivity | ].
    destruct items as [ | [k v] rest]; [exact I | ].
    simpl in Hfirst. bind_step Hfirst as u8 Hk.
    apply assert_type_OK in Hk, Hfirst. auto.
  - intros (-> & Hshared & (items & -> & Hitems) & Hd & Hs & Hb & Ha).
    rewrite (proj2 (assert_type_OK shared_state _ tt) Hshared); simpl.
    rewrite (proj2 (assert_type_OK dealer _ tt) Hd).
    rewrite (proj2 (assert_type_OK small _ tt) Hs).
    rewrite (proj2 (assert_type_OK big _ tt) Hb).
    rewrite (proj2 (assert_type_null_OK active _ tt) Ha).
    destruct items as [ | [k v] rest]; [reflexivity | ].
    destruct Hitems as [Hk Hv]. simpl.
    rewrite (proj2 (assert_type_OK k _ tt) Hk); simpl.
    rewrite (proj2 (assert_type_OK v _ tt) Hv); simpl.
    reflexivity.
Qed.

(** X7.  For [player_states] a dict (its keys are hashable), [GameState]
    construction succeeds exactly when [shared_state] is a
    [SharedGameState], the dict is empty, the dealer and the two blind
    players are [PlayerId]s, and the active player is a [PlayerId] or
    [None].  A non-empty dict is refused at its first key, which is not a
    [PlayerId] since a [PlayerId] cannot be hashed: a [GameState] never holds
    a player state. *)
Theorem GameState_init_accepts
  (shared_state dealer small big active : value) (items : list (value * value)) :
  keys_hashable items ->
  (succeeds (GameState_init shared_state (VDict items) dealer small big active)
   <-> isinstance shared_state t_SharedGameState = true
       /\ items = []
       /\ isinstance dealer t_PlayerId = true
       /\ isinstance small t_PlayerId = true
       /\ isinstance big t_PlayerId = true
       /\ (active = VNone \/ isinstance active t_PlayerId = true)).
Proof.
  intros Hkeys. split.
  - intros [s H]. apply GameState_init_OK_iff in H
      as (_ & Hshared & (items' & [= <-] & Hitems) & Hd & Hs & Hb & Ha).
    repeat split; try assumption.
    destruct items as [ | [k v] rest]; [reflexivity | exfalso].
    inversion Hkeys as [ | ? ? Hh _]; subst.
    apply hashable_not_PlayerId in Hh. cbn [fst] in Hh.
    destruct Hitems as [Hk _]. congruence.
  - intros (Hshared & -> & Hd & Hs & Hb & Ha). eexists.
    apply GameState_init_OK_iff. split; [reflexivity | ].
    repeat split; try assumption. exists []. split; [reflexivity | exact I].
Qed.

Lemma GameState_init_accepts_witness :
  succeeds (GameState_init
              (VSharedGameState (VInt 0) (VList [VPot (VInt 0) (VDict [])])
                 (VList [VCard HEARTS; VCard SPADES; VCard CLUBS]) (VInt 1) (VInt 2))
              (VDict []) FAKE_PLAYER_ID FAKE_PLAYER_ID FAKE_PLAYER_ID VNone)
  <-> isinstance
        (VSharedGameState (VInt 0) (VList [VPot (VInt 0) (VDict [])])
           (VList [VCard HEARTS; VCard SPADES; VCard CLUBS]) (VInt 1) (VInt 2))
        t_SharedGameState = true
      /\ @nil (value * value) = []
      /\ isinstance FAKE_PLAYER_ID t_PlayerId = true
      /\ isinstance FAKE_PLAYER_ID t_PlayerId = true
      /\ isinstance FAKE_PLAYER_ID t_PlayerId = true
      /\ (VNone = VNone \/ isinstance VNone t_PlayerId = true).
Proof.
  apply (GameState_init_accepts _ FAKE_PLAYER_ID FAKE_PLAYER_ID FAKE_PLAYER_ID VNone []).
  constructor.
Defined.

(** ** state.py and message.py: reading an entity back *)

Lemma GameStateMessage_init_OK_iff (action_type game_state action_requested m : value) :
  GameStateMessage_init action_type game_state action_requested = OK m
  <-> m = VGameStateMessage action_type game_state action_requested
      /\ isinstance action_type t_ActionType = true
      /\ isinstance game_state t_GameState = true
      /\ isinstance action_requested t_bool = true.
Proof.
  unfold GameStateMessage_init. split.
  - intros H. bind_step H as u1 Ha. bind_step H as u2 Hg. bind_step H as u3 Hr.
    injection H as <-. apply assert_type_OK in Ha, Hg, Hr. auto.
  - intros (-> & Ha & Hg & Hr).
    rewrite (proj2 (assert_type_OK action_type _ tt) Ha); simpl.
    rewrite (proj2 (assert_type_OK game_state _ tt) Hg); simpl.
    rewrite (proj2 (assert_type_OK action_requested _ tt) Hr); simpl.
    reflexivity.
Qed.

(** X8.  The accessors of a constructed entity return what it was
    constructed from: the amounts and identifiers themselves, and for a
    list or dict a container with the same items. *)
Theorem accessors_return_constructor_arguments :
  (forall cards folded stack bet pot_share s,
      PlayerGameState_init cards folded stack bet pot_share = OK s ->
      get_cards s = OK cards /\ get_stack s = OK stack
      /\ get_bet s = OK bet /\ get_pot_share s = OK pot_share)
  /\ (forall amount player_shares s,
         Pot_init amount player_shares = OK s ->
         get_amount s = OK amount /\ get_player_shares s = OK player_shares)
  /\ (forall pot_total pots board_cards small_blind big_blind s,
         SharedGameState_init pot_total pots board_cards small_blind big_blind = OK s ->
         get_pot_total s = OK pot_total /\ get_pots s = OK pots
         /\ get_board_cards s = OK board_cards
         /\ get_small_blind s = OK small_blind /\ get_big_blind s = OK big_blind)
  /\ (forall shared_state player_states dealer small big active s,
         GameState_init shared_state player_states dealer small big active = OK s ->
         get_shared_state s = OK shared_state
         /\ get_player_states s = OK player_states
         /\ get_dealer_player s = OK dealer
         /\ get_small_blind_player s = OK small
         /\ get_big_blind_player s = OK big
         /\ get_active_player s = OK active)
  /\ (forall action_type game_state action_requested m,
         GameStateMessage_init action_type game_state action_requested = OK m ->
         get_action_type m = OK action_type
         /\ get_game_state m = OK game_state
         /\ is_action_requested m = OK action_requested).
Proof.
  split; [ | split; [ | split; [ | split]]].
  - intros cards folded stack bet pot_share s H.
    apply PlayerGameState_init_inv in H as (-> & (c0 & c1 & -> & _) & _).
    repeat split; reflexivity.
  - intros amount player_shares s H.
    apply Pot_init_OK_iff in H as (-> & _ & items & -> & _).
    split; reflexivity.
  - intros pot_total pots board_cards small_blind big_blind s H.
    apply SharedGameState_init_OK_iff in H
      as (-> & _ & (p & ps & -> & _) & (b & bs & -> & _) & _).
    repeat split; reflexivity.
  - intros shared_state player_states dealer small big active s H.
    apply GameState_init_OK_iff in H as (-> & _ & (items & -> & _) & _).
    repeat split; reflexivity.
  - intros action_type game_state action_requested m H.
    apply GameStateMessage_init_OK_iff in H as (-> & _).
    repeat split; reflexivity.
Qed.

Lemma accessors_return_constructor_arguments_witness :
  (get_cards (VPlayerGameState (VList [VCard HEARTS; VNone]) (VBool true)
                (VInt 40) (VInt 2) (VInt 6))
   = OK (VList [VCard HEARTS; VNone])
   /\ get_stack (VPlayerGameState (VList [VCard HEARTS; VNone]) (VBool true)
                   (VInt 40) (VInt 2) (VInt 6)) = OK (VInt 40)
   /\ get_bet (VPlayerGameState (VList [VCard HEARTS; VNone]) (VBool true)
                 (VInt 40) (VInt 2) (VInt 6)) = OK (VInt 2)
   /\ get_pot_share (VPlayerGameState (VList [VCard HEARTS; VNone]) (VBool true)
                       (VInt 40) (VInt 2) (VInt 6)) = OK (VInt 6))
  /\ (get_amount (VPot (VInt 9) (VDict [])) = OK (VInt 9)
      /\ get_player_shares (VPot (VInt 9) (VDict [])) = OK (VDict [])).
Proof.
  split.
  - apply (proj1 accessors_return_constructor_arguments
             (VList [VCard HEARTS; VNone]) (VBool true) (VInt 40) (VInt 2) (VInt 6)).
    reflexivity.
  - apply (proj1 (proj2 accessors_return_constructor_arguments)
             (VInt 9) (VDict [])).
    reflexivity.
Defined.

(** ** net.py: what a decoded state holds *)

(** The cards made of a sequence of codes, one for one and in order, each
    with the suit its code names. *)
Lemma mapM_Card_init_suits (codes cards : list value) :
  mapM Card_init codes = OK cards ->
  Forall2 (fun code card =>
             exists r sc suit,
               code = VStr (String r (String sc EmptyString))
               /\ card = VCard suit
               /\ Suit_value suit = String sc EmptyString)
          codes cards.
Proof.
  revert cards. induction codes as [ | c codes IH]; simpl; intros cards H.
  - injection H as <-. constructor.
  - bind_step H as card Hcard. bind_step H as rest Hrest. injection H as <-.
    constructor; [ | now apply IH].
    destruct (Card_init_OK_code _ _ Hcard) as (rep & -> & r & sc & -> & Hr & Hs).
    destruct (Card_init_valid_OK r sc Hr Hs) as (suit & Hinit & Hv).
    rewrite Hinit in Hcard. injection Hcard as <-.
    exists r, sc, suit. auto.
Qed.

Section DecodedState.

Variable uuid_hex : string -> option N.

Lemma for_each_parse_player_OK (json : value) (specs : list value) (d d' : value) :
  for_each (parse_player uuid_hex json) specs d = OK d' -> specs = [] /\ d' = d.
Proof.
  destruct specs as [ | spec rest]; simpl.
  - intros [= <-]. auto.
  - intros H. bind_step H as d1 H1.
    destruct (parse_player_fails uuid_hex json d spec) as [e He].
    rewrite He in H1. discriminate.
Qed.

(** X9.  Every state that [parse_game_state] returns has no player states,
    the sentinel [FAKE_PLAYER_ID] as dealer, small-blind and big-blind
    player, a [PlayerId] (never [None]) as active player, and exactly one
    pot, whose amount is the payload's [pot], the same object as the pot
    total, with an empty share mapping; the blinds are the payload's. *)
Theorem parse_game_state_result (g s : value) :
  parse_game_state uuid_hex g = OK s ->
  exists pot cards small big txt u,
    s = VGameState
          (VSharedGameState pot (VList [VPot pot (VDict [])]) (VList cards) small big)
          (VDict []) FAKE_PLAYER_ID FAKE_PLAYER_ID FAKE_PLAYER_ID (VPlayerId u)
    /\ getitem_str g "pot" = OK pot
    /\ getitem_str g "smallBlindAmount" = OK small
    /\ getitem_str g "bigBlindAmount" = OK big
    /\ getitem_str g "activeplayerId" = OK (VStr txt)
    /\ uuid_hex txt = Some u.
Proof.
  unfold parse_game_state. intros H.
  bind_step H as players Hplayers.
  bind_step H as specs Hspecs.
  bind_step H as player_states Hstates.
  bind_step H as pot_total Hpot.
  bind_step H as amount Hamount.
  bind_step H as pot Hpot_init.
  bind_step H as community Hcommunity.
  bind_step H as codes Hcodes.
  bind_step H as cards Hcards.
  bind_step H as small_blind Hsmall.
  bind_step H as big_blind Hbig.
  bind_step H as shared Hshared.
  bind_step H as active Hactive.
  bind_step H as active_player Hid.
  apply for_each_parse_player_OK in Hstates as [_ ->].
  rewrite Hpot in Hamount. injection Hamount as <-.
  apply Pot_init_OK_iff in Hpot_init as (-> & _).
  apply SharedGameState_init_OK_iff in Hshared as (-> & _).
  apply PlayerId_init_OK in Hid as (txt & u & -> & Hu & ->).
  apply GameState_init_OK_iff in H as (-> & _).
  exists pot_total, cards, small_blind, big_blind, txt, u.
  repeat split; assumption.
Qed.

(** X10.  The board of a decoded state has one card for each entry of
    [communityCards], in the payload's order, and each card has the suit
    that the second character of its code names. *)
Theorem parse_game_state_board (g s : value) :
  parse_game_state uuid_hex g = OK s ->
  exists community codes cards shared,
    getitem_str g "communityCards" = OK community
    /\ iter community = OK codes
    /\ get_shared_state s = OK shared
    /\ get_board_cards shared = OK (VList cards)
    /\ Forall2 (fun code card =>
                  exists r sc suit,
                    code = VStr (String r (String sc EmptyString))
                    /\ card = VCard suit
                    /\ Suit_value suit = String sc EmptyString)
               codes cards.
Proof.
  unfold parse_game_state. intros H.
  bind_step H as players Hplayers.
  bind_step H as specs Hspecs.
  bind_step H as player_states Hstates.
  bind_step H as pot_total Hpot.
  bind_step H as amount Hamount.
  bind_step H as pot Hpot_init.
  bind_step H as community Hcommunity.
  bind_step H as codes Hcodes.
  bind_step H as cards Hcards.
  bind_step H as small_blind Hsmall.
  bind_step H as big_blind Hbig.
  bind_step H as shared Hshared.
  bind_step H as active Hactive.
  bind_step H as active_player Hid.
  apply SharedGameState_init_OK_iff in Hshared as (-> & _).
  apply GameState_init_OK_iff in H as (-> & _).
  exists community, codes, cards. eexists.
  split; [exact Hcommunity | ]. split; [exact Hcodes | ].
  split; [reflexivity | ]. split; [reflexivity | ].
  now apply mapM_Card_init_suits.
Qed.

(** X11.  A message that [parse_game_state_message] returns carries the
    action type [ActionType.TODO], the state that [parse_game_state] makes of
    the payload's [game_state], and the payload's [actionRequested], which is
    a [bool]. *)
Theorem parse_game_state_message_result (json m : value) :
  json_value json ->
  parse_game_state_message uuid_hex json = OK m ->
  exists g s b,
    getitem_str json "action" = OK (VStr "")
    /\ getitem_str json "game_state" = OK g
    /\ parse_game_state uuid_hex g = OK s
    /\ getitem_str json "actionRequested" = OK (VBool b)
    /\ get_action_type m = OK VActionType_TODO
    /\ get_game_state m = OK s
    /\ is_action_requested m = OK (VBool b).
Proof.
  unfold parse_game_state_message. intros Hjson H.
  bind_step H as action Haction.
  bind_step H as action_type Htype.
  bind_step H as g Hg.
  bind_step H as s Hs.
  bind_step H as requested Hrequested.
  apply GameStateMessage_init_OK_iff in H as (-> & Ha & _ & Hb).
  apply is_bool_isinstance in Hb as [b ->].
  assert (action = VStr "") as ->.
  { eapply ActionType_call_json; [ | exact Htype].
    eapply json_value_getitem_str; eassumption. }
  simpl in Htype. injection Htype as <-.
  exists g, s, b. repeat split; assumption.
Qed.

End DecodedState.

Lemma parse_game_state_result_witness :
  exists pot cards small big txt u,
    VGameState
      (VSharedGameState (VInt 0) (VList [VPot (VInt 0) (VDict [])])
         (VList [VCard HEARTS; VCard DIAMONDS; VCard SPADES]) (VInt 1) (VInt 2))
      (VDict []) FAKE_PLAYER_ID FAKE_PLAYER_ID FAKE_PLAYER_ID
      (VPlayerId 0x6f1c2a9e3b4d4c5e8f70123456789abc%N)
    = VGameState
        (VSharedGameState pot (VList [VPot pot (VDict [])]) (VList cards) small big)
        (VDict []) FAKE_PLAYER_ID FAKE_PLAYER_ID FAKE_PLAYER_ID (VPlayerId u)
    /\ getitem_str (empty_table_game_state some_uuid) "pot" = OK pot
    /\ getitem_str (empty_table_game_state some_uuid) "smallBlindAmount" = OK small
    /\ getitem_str (empty_table_game_state some_uuid) "bigBlindAmount" = OK big
    /\ getitem_str (empty_table_game_state some_uuid) "activeplayerId" = OK (VStr txt)
    /\ uuid_plain_hex txt = Some u.
Proof.
  apply (parse_game_state_result uuid_plain_hex (empty_table_game_state some_uuid)).
  reflexivity.
Defined.

Lemma parse_game_state_board_witness :
  exists community codes cards shared,
    getitem_str (empty_table_game_state some_uuid) "communityCards" = OK community
    /\ iter community = OK codes
    /\ get_shared_state
         (VGameState
            (VSharedGameState (VInt 0) (VList [VPot (VInt 0) (VDict [])])
               (VList [VCard HEARTS; VCard DIAMONDS; VCard SPADES]) (VInt 1) (VInt 2))
            (VDict []) FAKE_PLAYER_ID FAKE_PLAYER_ID FAKE_PLAYER_ID
            (VPlayerId 0x6f1c2a9e3b4d4c5e8f70123456789abc%N))
       = OK shared
    /\ get_board_cards shared = OK (VList cards)
    /\ Forall2 (fun code card =>
                  exists r sc suit,
                    code = VStr (String r (String sc EmptyString))
                    /\ card = VCard suit
                    /\ Suit_value suit = String sc EmptyString)
               codes cards.
Proof.
  apply (parse_game_state_board uuid_plain_hex (empty_table_game_state some_uuid)).
  reflexivity.
Defined.

Lemma parse_game_state_message_result_witness :
  exists g s b,
    getitem_str (empty_table_payload some_uuid) "action" = OK (VStr "")
    /\ getitem_str (empty_table_payload some_uuid) "game_state" = OK g
    /\ parse_game_state uuid_plain_hex g = OK s
    /\ getitem_str (empty_table_payload some_uuid) "actionRequested" = OK (VBool b)
    /\ get_action_type
         (VGameStateMessage VActionType_TODO
            (VGameState
               (VSharedGameState (VInt 0) (VList [VPot (VInt 0) (VDict [])])
                  (VList [VCard HEARTS; VCard DIAMONDS; VCard SPADES])
                  (VInt 1) (VInt 2))
               (VDict []) FAKE_PLAYER_ID FAKE_PLAYER_ID FAKE_PLAYER_ID
               (VPlayerId 0x6f1c2a9e3b4d4c5e8f70123456789abc%N))
            (VBool true))
       = OK VActionType_TODO
    /\ get_game_state
         (VGameStateMessage VActionType_TODO
            (VGameState
               (VSharedGameState (VInt 0) (VList [VPot (VInt 0) (VDict [])])
                  (VList [VCard HEARTS; VCard DIAMONDS; VCard SPADES])
                  (VInt 1) (VInt 2))
               (VDict []) FAKE_PLAYER_ID FAKE_PLAYER_ID FAKE_PLAYER_ID
               (VPlayerId 0x6f1c2a9e3b4d4c5e8f70123456789abc%N))
            (VBool true))
       = OK s
    /\ is_action_requested
         (VGameStateMessage VActionType_TODO
            (VGameState
               (VSharedGameState (VInt 0) (VList [VPot (VInt 0) (VDict [])])
                  (VList [VCard HEARTS; VCard DIAMONDS; VCard SPADES])
                  (VInt 1) (VInt 2))
               (VDict []) FAKE_PLAYER_ID FAKE_PLAYER_ID FAKE_PLAYER_ID
               (VPlayerId 0x6f1c2a9e3b4d4c5e8f70123456789abc%N))
            (VBool true))
       = OK (VBool b).
Proof.
  apply (parse_game_state_message_result uuid_plain_hex (empty_table_payload some_uuid)).
  - repeat (constructor; simpl; try (split; [eexists; reflexivity | ])).
  - reflexivity.
Defined.

Section PlayerEntry.

Variable uuid_hex : string -> option N.

(** X12.  What the loop of [parse_game_state] makes for one entry of
    [players], before it is stored: the key is the [PlayerId] of the entry's
    [id], the one thing read from the entry; the folded flag, stack, bet and
    pot share are those of the outer payload; and the cards are two unknown
    cards when the outer [holeCards] is null, and otherwise the cards of its
    codes, of which there must be two. *)
Theorem player_entry_result (json spec k state : value) :
  player_entry uuid_hex json spec = OK (k, state) ->
  exists txt u hole cards folded stack bet pot_share,
    getitem_str spec "id" = OK (VStr txt) /\ uuid_hex txt = Some u
    /\ k = VPlayerId u
    /\ state = VPlayerGameState (VList cards) folded stack bet pot_share
    /\ getitem_str json "holeCards" = OK hole
    /\ getitem_str json "folded" = OK folded
    /\ getitem_str json "stack" = OK stack
    /\ getitem_str json "bet" = OK bet
    /\ getitem_str json "pot_share" = OK pot_share
    /\ List.length cards = 2%nat
    /\ (hole = VNone /\ cards = [VNone; VNone]
        \/ exists codes, iter hole = OK codes /\ mapM Card_init codes = OK cards).
Proof.
  unfold player_entry. intros H.
  bind_step H as id Hid.
  bind_step H as player_id Hplayer.
  bind_step H as hole Hhole.
  bind_step H as player_cards Hcards.
  bind_step H as folded Hfolded.
  bind_step H as stack Hstack.
  bind_step H as bet Hbet.
  bind_step H as pot_share Hshare.
  bind_step H as s Hstate.
  injection H as <- <-.
  apply PlayerId_init_OK in Hplayer as (txt & u & -> & Hu & ->).
  apply PlayerGameState_init_inv in Hstate as (-> & (c0 & c1 & -> & _) & _).
  exists txt, u, hole, [c0; c1], folded, stack, bet, pot_share.
  repeat (split; [first [assumption | reflexivity] | ]).
  destruct (is_None hole) eqn:Hnone; simpl in Hcards.
  - left. destruct hole; try discriminate. split; [reflexivity | congruence].
  - right. bind_step Hcards as codes Hcodes. bind_step Hcards as cards Hmap.
    injection Hcards as ->. exists codes. auto.
Qed.

End PlayerEntry.

Lemma player_entry_result_witness :
  exists txt u hole cards folded stack bet pot_share,
    getitem_str (sdict [("id", VStr some_uuid)]) "id" = OK (VStr txt)
    /\ uuid_plain_hex txt = Some u
    /\ VPlayerId 0x6f1c2a9e3b4d4c5e8f70123456789abc%N = VPlayerId u
    /\ VPlayerGameState (VList [VNone; VNone]) (VBool false) (VInt 100) (VInt 0) (VInt 0)
       = VPlayerGameState (VList cards) folded stack bet pot_share
    /\ getitem_str (scenario_game_state some_uuid) "holeCards" = OK hole
    /\ getitem_str (scenario_game_state some_uuid) "folded" = OK folded
    /\ getitem_str (scenario_game_state some_uuid) "stack" = OK stack
    /\ getitem_str (scenario_game_state some_uuid) "bet" = OK bet
    /\ getitem_str (scenario_game_state some_uuid) "pot_share" = OK pot_share
    /\ List.length cards = 2%nat
    /\ (hole = VNone /\ cards = [VNone; VNone]
        \/ exists codes, iter hole = OK codes /\ mapM Card_init codes = OK cards).
Proof.
  apply (player_entry_result uuid_plain_hex (scenario_game_state some_uuid)
           (sdict [("id", VStr some_uuid)])).
  reflexivity.
Defined.

(** ** net.py: the dispatch loop on state-sync events and on bad input *)

Lemma dict_get_remove_other (items : list (value * value)) (k k' : string) :
  k <> k' -> dict_get (dict_remove items k) k' = dict_get items k'.
Proof.
  intros Hne. induction items as [ | [key v] items IH]; simpl; [reflexivity | ].
  destruct (eq_str key k) eqn:Hk.
  - destruct key; try discriminate. simpl in Hk. apply String.eqb_eq in Hk. subst.
    simpl. destruct (String.eqb_spec k k'); [contradiction | reflexivity].
  - simpl. destruct (eq_str key k'); [reflexivity | exact IH].
Qed.

Lemma getitem_str_remove_other (items : list (value * value)) (k k' : string) :
  k <> k' ->
  getitem_str (VDict (dict_remove items k)) k' = getitem_str (VDict items) k'.
Proof. intros Hne. simpl. now rewrite dict_get_remove_other. Qed.

(** The decode does not read the [event] key: the payload without it
    decodes as the payload with it. *)
Lemma parse_game_state_message_without_event
  (uuid_hex : string -> option N) (items : list (value * value)) :
  parse_game_state_message uuid_hex (VDict (dict_remove items "event"))
  = parse_game_state_message uuid_hex (VDict items).
Proof.
  unfold parse_game_state_message.
  rewrite !getitem_str_remove_other by discriminate. reflexivity.
Qed.

Section ClientEvents.

Variable uuid_hex : string -> option N.
Variable json_loads : string -> result value.
Variable Bot : Type.
Variable handle_game_state_message : Bot -> value -> Bot * result unit.

Let receive := on_message uuid_hex json_loads Bot handle_game_state_message.
Let serve := do_client uuid_hex json_loads Bot handle_game_state_message.

Lemma serve_cons (c : client Bot) (body : string) (rest : list string) :
  serve c (body :: rest)
  = match receive c body with
    | (c', OK _) => serve c' rest
    | (c', Raise e) => (c', e)
    end.
Proof. reflexivity. Qed.

(** X13.  On a received payload whose [event] is ["gameState"] and that
    decodes, the bot is handed the decoded message, the one
    [parse_game_state_message] makes of the received payload, once, whether
    the message requests an action or not; the bot afterwards is the one its
    handler leaves, and the loop goes on exactly when the handler returns. *)
Theorem game_state_event_reaches_bot
  (c : client Bot) (body : string) (items : list (value * value))
  (message : value) (rest : list string) :
  json_loads body = OK (VDict items) ->
  dict_get items "event" = Some (VStr "gameState") ->
  parse_game_state_message uuid_hex (VDict items) = OK message ->
  let handled := handle_game_state_message (bot c) message in
  let c' := Client (fst handled) (trace c ++ [Printed body; Handled message]) in
  receive c body = (c', snd handled)
  /\ serve c (body :: rest)
     = match snd handled with
       | OK _ => serve c' rest
       | Raise e => (c', e)
       end.
Proof.
  intros Hloads Hevent Hparse handled c'.
  assert (H : receive c body = (c', snd handled)).
  { unfold receive, on_message. rewrite Hloads. simpl. rewrite Hevent. simpl.
    rewrite parse_game_state_message_without_event, Hparse.
    unfold c', handled.
    destruct (handle_game_state_message (bot c) message) as [b r]. simpl.
    rewrite <- app_assoc. reflexivity. }
  split; [exact H | ].
  rewrite serve_cons, H. reflexivity.
Qed.

(** X14.  On a received payload whose [event] is ["gameState"] and that
    does not decode, the loop ends with the exception of the decode: the bot
    is not called and the texts that follow are not received. *)
Theorem undecodable_game_state_ends_loop
  (c : client Bot) (body : string) (items : list (value * value))
  (e : exn) (rest : list string) :
  json_loads body = OK (VDict items) ->
  dict_get items "event" = Some (VStr "gameState") ->
  parse_game_state_message uuid_hex (VDict items) = Raise e ->
  serve c (body :: rest) = (Client (bot c) (trace c ++ [Printed body]), e).
Proof.
  intros Hloads Hevent Hparse.
  rewrite serve_cons. unfold receive, on_message.
  rewrite Hloads. simpl. rewrite Hevent. simpl.
  rewrite parse_game_state_message_without_event, Hparse. reflexivity.
Qed.

(** X15.  A state-sync event whose game state lists at least one player
    ends the loop with an exception, before the bot is called: no such
    payload decodes. *)
Theorem game_state_with_players_ends_loop
  (c : client Bot) (body : string) (items : list (value * value))
  (g players spec : value) (specs rest : list value) (texts : list string) :
  json_loads body = OK (VDict items) ->
  dict_get items "event" = Some (VStr "gameState") ->
  dict_get items "game_state" = Some g ->
  getitem_str g "players" = OK players ->
  iter players = OK (spec :: specs) ->
  exists e, serve c (body :: texts) = (Client (bot c) (trace c ++ [Printed body]), e).
Proof.
  intros Hloads Hevent Hg Hplayers Hiter.
  assert (Hfail : fails (parse_game_state_message uuid_hex (VDict items))).
  { apply not_succeeds_fails. intros [m Hm].
    unfold parse_game_state_message in Hm.
    bind_step Hm as action Haction. bind_step Hm as action_type Htype.
    bind_step Hm as g' Hg'. bind_step Hm as s Hs.
    simpl in Hg'. rewrite Hg in Hg'. injection Hg' as <-.
    unfold parse_game_state in Hs.
    rewrite Hplayers in Hs; cbn [bind] in Hs. rewrite Hiter in Hs; cbn [bind] in Hs.
    bind_step Hs as d Hd.
    apply for_each_parse_player_OK in Hd as [Hnil _]. discriminate. }
  destruct Hfail as [e He]. exists e.
  rewrite serve_cons. unfold receive, on_message.
  rewrite Hloads. simpl. rewrite Hevent. simpl.
  rewrite parse_game_state_message_without_event, He. reflexivity.
Qed.

(** X16.  A received text that [json.loads] refuses ends the loop with the
    exception of [json.loads]; a text that is valid JSON and is not an
    object ends it at [data.pop("event")], with [TypeError] for an array and
    [AttributeError] for a string, a number, a boolean or null.  In each case
    the text has been printed, the bot is not called, and nothing more is
    received. *)
Theorem bad_text_ends_loop (c : client Bot) (body : string) (rest : list string) :
  (forall e, json_loads body = Raise e ->
             serve c (body :: rest) = (emit c (Printed body), e))
  /\ (forall xs, json_loads body = OK (VList xs) ->
                 serve c (body :: rest) = (emit c (Printed body), TypeError))
  /\ (forall v, json_loads body = OK v -> json_value v ->
                isinstance v t_list = false -> isinstance v t_dict = false ->
                serve c (body :: rest) = (emit c (Printed body), AttributeError)).
Proof.
  split; [ | split].
  - intros e H. rewrite serve_cons. unfold receive, on_message. now rewrite H.
  - intros xs H. rewrite serve_cons. unfold receive, on_message. now rewrite H.
  - intros v H Hjson Hl Hd. rewrite serve_cons. unfold receive, on_message.
    rewrite H. destruct Hjson; try discriminate; reflexivity.
Qed.

End ClientEvents.

Lemma game_state_event_reaches_bot_witness :
  on_message uuid_plain_hex more_loads nat counting_bot (Client 0%nat [])
    empty_table_text
  = (Client 1%nat [Printed empty_table_text; Handled empty_table_message], OK tt)
  /\ do_client uuid_plain_hex more_loads nat counting_bot (Client 0%nat [])
       [empty_table_text; ping_text]
     = do_client uuid_plain_hex more_loads nat counting_bot
         (Client 1%nat [Printed empty_table_text; Handled empty_table_message])
         [ping_text].
Proof.
  apply (game_state_event_reaches_bot uuid_plain_hex more_loads nat counting_bot
           (Client 0%nat []) empty_table_text
           [ (VStr "event", VStr "gameState"); (VStr "action", VStr "");
             (VStr "actionRequested", VBool true);
             (VStr "game_state", empty_table_game_state some_uuid) ]
           empty_table_message [ping_text]); reflexivity.
Defined.

Lemma undecodable_game_state_ends_loop_witness :
  do_client uuid_plain_hex more_loads nat counting_bot (Client 0%nat [])
    [scenario_text; ping_text]
  = (Client 0%nat [Printed scenario_text], TypeError).
Proof.
  apply (undecodable_game_state_ends_loop uuid_plain_hex more_loads nat counting_bot
           (Client 0%nat []) scenario_text
           [ (VStr "event", VStr "gameState"); (VStr "action", VStr "");
             (VStr "actionRequested", VBool true);
             (VStr "game_state", scenario_game_state some_uuid) ]
           TypeError [ping_text]); reflexivity.
Defined.

Lemma game_state_with_players_ends_loop_witness :
  exists e,
    do_client uuid_plain_hex more_loads nat counting_bot (Client 0%nat [])
      [scenario_text; ping_text]
    = (Client 0%nat [Printed scenario_text], e).
Proof.
  apply (game_state_with_players_ends_loop uuid_plain_hex more_loads nat counting_bot
           (Client 0%nat []) scenario_text
           [ (VStr "event", VStr "gameState"); (VStr "action", VStr "");
             (VStr "actionRequested", VBool true);
             (VStr "game_state", scenario_game_state some_uuid) ]
           (scenario_game_state some_uuid)
           (VList [sdict [("id", VStr some_uuid)]])
           (sdict [("id", VStr some_uuid)]) [] [] [ping_text]); reflexivity.
Defined.

Lemma bad_text_ends_loop_witness :
  do_client uuid_plain_hex more_loads nat counting_bot (Client 0%nat [])
    [broken_text; ping_text]
  = (Client 0%nat [Printed broken_text], ValueError)
  /\ do_client uuid_plain_hex more_loads nat counting_bot (Client 0%nat [])
       [array_text; ping_text]
     = (Client 0%nat [Printed array_text], TypeError)
  /\ do_client uuid_plain_hex more_loads nat counting_bot (Client 0%nat [])
       [null_text; ping_text]
     = (Client 0%nat [Printed null_text], AttributeError).
Proof.
  split; [ | split].
  - apply (proj1 (bad_text_ends_loop uuid_plain_hex more_loads nat counting_bot
                    (Client 0%nat []) broken_text [ping_text])).
    reflexivity.
  - apply (proj1 (proj2 (bad_text_ends_loop uuid_plain_hex more_loads nat counting_bot
                           (Client 0%nat []) array_text [ping_text])) []).
    reflexivity.
  - apply (proj2 (proj2 (bad_text_ends_loop uuid_plain_hex more_loads nat counting_bot
                           (Client 0%nat []) null_text [ping_text])) VNone).
    + reflexivity.
    + constructor.
    + reflexivity.
    + reflexivity.
Defined.

(** ** net.py: the loop over a sequence of texts *)

Lemma printed_bodies_app (xs ys : list effect) :
  printed_bodies (xs ++ ys)%list = (printed_bodies xs ++ printed_bodies ys)%list.
Proof.
  induction xs as [ | [body | m | ev d] xs IH]; simpl; [reflexivity | | | ];
    now rewrite IH.
Qed.

Section ClientRuns.

Variable uuid_hex : string -> option N.
Variable json_loads : string -> result value.
Variable Bot : Type.
Variable handle_game_state_message : Bot -> value -> Bot * result unit.

Let receive := on_message uuid_hex json_loads Bot handle_game_state_message.
Let serve := do_client uuid_hex json_loads Bot handle_game_state_message.

(** One turn prints the received text first, and then does at most one
    more thing, which is not a print. *)
Lemma receive_trace (c : client Bot) (body : string) :
  exists tail,
    trace (fst (receive c body)) = (trace c ++ Printed body :: tail)%list
    /\ printed_bodies tail = [] /\ (List.length tail <= 1)%nat.
Proof.
  unfold receive, on_message.
  destruct (json_loads body) as [data | e]; simpl;
    [ | exists []; simpl; auto].
  destruct (dict_pop data "event") as [[event data'] | e]; simpl;
    [ | exists []; simpl; auto].
  destruct (eq_str event "gameState").
  - destruct (parse_game_state_message uuid_hex data') as [m | e]; simpl;
      [ | exists []; simpl; auto].
    destruct (handle_game_state_message (bot c) m) as [b r]; simpl.
    exists [Handled m]. rewrite <- app_assoc. simpl. auto.
  - simpl. exists [Warned event data']. rewrite <- app_assoc. simpl. auto.
Qed.

(** One turn prints the received text first and then does at most one
    more thing: a call of the bot or a warning. *)
Lemma receive_block (c : client Bot) (body : string) :
  exists tail,
    trace (fst (receive c body)) = (trace c ++ Printed body :: tail)%list
    /\ at_most_one_action tail.
Proof.
  unfold receive, on_message, at_most_one_action.
  destruct (json_loads body) as [data | e]; simpl;
    [ | exists []; simpl; auto].
  destruct (dict_pop data "event") as [[event data'] | e]; simpl;
    [ | exists []; simpl; auto].
  destruct (eq_str event "gameState").
  - destruct (parse_game_state_message uuid_hex data') as [m | e]; simpl;
      [ | exists []; simpl; auto].
    destruct (handle_game_state_message (bot c) m) as [b r]; simpl.
    exists [Handled m]. rewrite <- app_assoc. simpl. eauto.
  - simpl. exists [Warned event data']. rewrite <- app_assoc. simpl. eauto 6.
Qed.

(** X17.  The loop takes the texts in the order of arrival, one at a time,
    and stops at the first exception.  For every sequence [xs] of received
    texts, either the turns on a first part of [xs] all return, the turn on
    the next text raises from the client they leave, and the loop ends there
    with that exception and the client of that turn, whatever texts follow;
    or the turns on all of [xs] return, and the loop goes on with the texts
    that follow from the client they leave (and ends with [ConnectionClosed]
    if none follows). *)
Theorem do_client_in_arrival_order (c : client Bot) (xs : list string) :
  (exists pre body post c1 c2 e,
      xs = (pre ++ body :: post)%list
      /\ processed uuid_hex json_loads handle_game_state_message c pre c1
      /\ receive c1 body = (c2, Raise e)
      /\ forall zs, serve c (xs ++ zs)%list = (c2, e))
  \/ (exists c',
         processed uuid_hex json_loads handle_game_state_message c xs c'
         /\ serve c xs = (c', ConnectionClosed)
         /\ forall zs, serve c (xs ++ zs)%list = serve c' zs).
Proof.
  revert c. induction xs as [ | body xs IH]; intros c.
  - right. exists c. split; [constructor | ]. split; reflexivity.
  - destruct (receive c body) as [c1 [u | e]] eqn:Hturn.
    + destruct (IH c1) as [(pre & b & post & d1 & d2 & e & -> & Hpre & Hb & Hall)
                          | (c' & Hdone & Hend & Hgo)].
      * left. exists (body :: pre), b, post, d1, d2, e.
        split; [reflexivity | ].
        split; [econstructor; [exact Hturn | exact Hpre] | ].
        split; [exact Hb | ].
        intros zs. unfold serve. simpl. fold receive. fold serve.
        rewrite Hturn. apply Hall.
      * right. exists c'.
        split; [econstructor; [exact Hturn | exact Hdone] | ].
        split; [ | intros zs]; unfold serve; simpl; fold receive; fold serve;
          rewrite Hturn; [exact Hend | apply Hgo].
    + left. exists [], body, xs, c, c1, e.
      split; [reflexivity | ]. split; [constructor | ]. split; [exact Hturn | ].
      intros zs. unfold serve. simpl. fold receive. now rewrite Hturn.
Qed.

(** X18.  What the loop has done when it ends is what had been done before,
    followed by one block for each text received, in the order of arrival:
    the print of the text, then at most one call of the bot or one warning.
    The texts of the blocks are all the received texts when every turn
    returned, and otherwise the texts up to and including the one whose turn
    raised. *)
Theorem do_client_prints_what_it_receives (c : client Bot) (xs : list string) :
  exists blocks,
    trace (fst (serve c xs)) = (trace c ++ block_effects blocks)%list
    /\ Forall (fun b => at_most_one_action (snd b)) blocks
    /\ ((map fst blocks = xs
         /\ exists c', processed uuid_hex json_loads handle_game_state_message
                         c xs c')
        \/ (exists pre body post c1 c2 e,
               xs = (pre ++ body :: post)%list
               /\ processed uuid_hex json_loads handle_game_state_message c pre c1
               /\ receive c1 body = (c2, Raise e)
               /\ map fst blocks = (pre ++ [body])%list)).
Proof.
  revert c. induction xs as [ | body xs IH]; intros c.
  - exists []. simpl. rewrite app_nil_r.
    split; [reflexivity | ]. split; [constructor | ].
    left. split; [reflexivity | ]. exists c. constructor.
  - destruct (receive_block c body) as (tail & Htrace & Htail).
    unfold serve. simpl. fold receive. fold serve.
    destruct (receive c body) as [c1 [u | e]] eqn:Hturn; simpl in Htrace.
    + destruct (IH c1) as (blocks & Ht & Hall & Hcover).
      exists ((body, tail) :: blocks).
      split; [ | split].
      * rewrite Ht, Htrace. unfold block_effects. simpl.
        rewrite <- !app_assoc. reflexivity.
      * constructor; [exact Htail | exact Hall].
      * destruct Hcover as [[Hmap [c' Hdone]]
                           | (pre & b & post & d1 & d2 & e & -> & Hpre & Hb & Hmap)].
        -- left. split; [simpl; now rewrite Hmap | ].
           exists c'. econstructor; [exact Hturn | exact Hdone].
        -- right. exists (body :: pre), b, post, d1, d2, e.
           split; [reflexivity | ].
           split; [econstructor; [exact Hturn | exact Hpre] | ].
           split; [exact Hb | ]. simpl. now rewrite Hmap.
    + exists [(body, tail)].
      split; [ | split].
      * simpl. unfold block_effects. simpl. rewrite app_nil_r. exact Htrace.
      * constructor; [exact Htail | constructor].
      * right. exists [], body, xs, c, c1, e.
        split; [reflexivity | ]. split; [constructor | ].
        split; [exact Hturn | reflexivity].
Qed.

End ClientRuns.

(** ** net.py: the arguments of [run_client] *)

Lemma assert_str_nonempty_OK (v : value) (u : unit) :
  assert_str_nonempty v false = OK u <-> exists s, v = VStr s /\ s <> "".
Proof.
  destruct u. unfold assert_str_nonempty; simpl.
  destruct v; simpl; try (split; [discriminate | intros (s' & H & _); discriminate]).
  destruct (String.eqb_spec s ""); simpl.
  - split; [discriminate | intros (s' & [= <-] & H); contradiction].
  - split; [intros _; exists s; auto | reflexivity].
Qed.

Lemma assert_str_nonempty_Raise (v : value) (e : exn) :
  assert_str_nonempty v false = Raise e -> e = AssertionError.
Proof.
  unfold assert_str_nonempty.
  destruct v; simpl; try congruence.
  destruct (String.eqb s ""); simpl; congruence.
Qed.

Section RunClient.

Variable uuid_hex : string -> option N.
Variable json_loads : string -> result value.
Variable Bot : Type.
Variable handle_game_state_message : Bot -> value -> Bot * result unit.
Variable connect : value -> result (list string).

Let start := run_client uuid_hex json_loads Bot handle_game_state_message connect.
Let serve := do_client uuid_hex json_loads Bot handle_game_state_message.

(** X19.  [run_client] checks its arguments before it opens a connection:
    with a [bot] that is not a [Bot], or a [host] that is not a non-empty
    [str] (the empty string, [None], a number), it raises [AssertionError],
    whatever [connect] would do, and nothing is received.  With a [Bot] and
    a non-empty [host] it ends with the exception of [connect] if the
    connection cannot be opened, and otherwise is [do_client] on the texts
    of the connection, from a client that has done nothing yet. *)
Theorem run_client_checks_arguments :
  (forall v host, start (inl v) host = (inl v, [], AssertionError))
  /\ (forall b host, (forall s, host = VStr s -> s = "") ->
                     start (inr b) host = (inr b, [], AssertionError))
  /\ (forall b s e, s <> "" -> connect (VStr s) = Raise e ->
                    start (inr b) (VStr s) = (inr b, [], e))
  /\ (forall b s texts, s <> "" -> connect (VStr s) = OK texts ->
                        start (inr b) (VStr s)
                        = (inr (bot (fst (serve (Client b []) texts))),
                           trace (fst (serve (Client b []) texts)),
                           snd (serve (Client b []) texts))).
Proof.
  assert (Hok : forall s, s <> "" -> assert_str_nonempty (VStr s) false = OK tt).
  { intros s Hs. apply assert_str_nonempty_OK. exists s. auto. }
  split; [ | split; [ | split]].
  - reflexivity.
  - intros b host Hhost. unfold start, run_client.
    destruct (assert_str_nonempty host false) as [[] | e] eqn:Ha.
    + apply assert_str_nonempty_OK in Ha as (s & -> & Hs).
      exfalso. apply Hs. now apply Hhost.
    + apply assert_str_nonempty_Raise in Ha. now subst.
  - intros b s e Hs Hc. unfold start, run_client. now rewrite (Hok s Hs), Hc.
  - intros b s texts Hs Hc. unfold start, run_client. rewrite (Hok s Hs), Hc.
    fold serve. destruct (serve (Client b []) texts) as [c e]. reflexivity.
Qed.

End RunClient.

Lemma run_client_checks_arguments_witness :
  run_client uuid_plain_hex more_loads nat counting_bot
    (example_connect [ping_text; empty_table_text]) (inr 0%nat) (VStr "")
  = (inr 0%nat, [], AssertionError)
  /\ run_client uuid_plain_hex more_loads nat counting_bot
       (example_connect [ping_text; empty_table_text]) (inr 0%nat)
       (VStr "ws://elsewhere")
     = (inr 0%nat, [], ConnectionClosed)
  /\ run_client uuid_plain_hex more_loads nat counting_bot
       (example_connect [ping_text; empty_table_text]) (inr 0%nat)
       (VStr "ws://localhost:9999")
     = (inr 1%nat,
        [Printed ping_text; Warned (VStr "ping") (VDict []);
         Printed empty_table_text; Handled empty_table_message],
        ConnectionClosed).
Proof.
  split; [ | split].
  - apply (proj1 (proj2 (run_client_checks_arguments uuid_plain_hex more_loads nat
                           counting_bot
                           (example_connect [ping_text; empty_table_text])))
             0%nat (VStr "")).
    intros s [= <-]. reflexivity.
  - apply (proj1 (proj2 (proj2 (run_client_checks_arguments uuid_plain_hex more_loads
                                  nat counting_bot
                                  (example_connect [ping_text; empty_table_text]))))
             0%nat "ws://elsewhere" ConnectionClosed).
    + discriminate.
    + reflexivity.
  - apply (proj2 (proj2 (proj2 (run_client_checks_arguments uuid_plain_hex more_loads
                                  nat counting_bot
                                  (example_connect [ping_text; empty_table_text]))))
             0%nat "ws://localhost:9999" [ping_text; empty_table_text]).
    + discriminate.
    + reflexivity.
Defined.

(** ** state.py: containers handed out and taken in *)

Module SharedCopies.
Import Shared SharedFacts.

(** X20.  Each of the five accessors of a container attribute returns a
    new container: whatever the caller then does to what it was given, the
    accessor returns the same contents as before. *)
Theorem accessors_return_new_containers :
  (forall h h' (self : PlayerGameState) l contents,
      get_cards h self = OK (l, h') ->
      l <> _cards self
      /\ returned (get_cards (mutate h' l contents) self)
         = returned (get_cards h self))
  /\ (forall h h' (self : Pot) l contents,
         get_player_shares h self = OK (l, h') ->
         l <> _player_shares self
         /\ returned (get_player_shares (mutate h' l contents) self)
            = returned (get_player_shares h self))
  /\ (forall h h' (self : SharedGameState) l contents,
         get_pots h self = OK (l, h') ->
         l <> _pots self
         /\ returned (get_pots (mutate h' l contents) self)
            = returned (get_pots h self))
  /\ (forall h h' (self : SharedGameState) l contents,
         get_board_cards h self = OK (l, h') ->
         l <> _board_cards self
         /\ returned (get_board_cards (mutate h' l contents) self)
            = returned (get_board_cards h self))
  /\ (forall h h' (self : GameState) l contents,
         get_player_states h self = OK (l, h') ->
         l <> _player_states self
         /\ returned (get_player_states (mutate h' l contents) self)
            = returned (get_player_states h self)).
Proof.
  split; [ | split; [ | split; [ | split]]];
    intros h h' self l contents H;
    exact (return_copy_is_new _ h h' _ l contents H).
Qed.

Lemma accessors_return_new_containers_witness :
  1%nat <> _cards callers_player
  /\ returned (get_cards (mutate (<[1%nat := VList [VNone; VNone]]> callers_heap)
                            1%nat (VList []))
                 callers_player)
     = returned (get_cards callers_heap callers_player).
Proof.
  apply (proj1 accessors_return_new_containers callers_heap
           (<[1%nat := VList [VNone; VNone]]> callers_heap) callers_player
           1%nat (VList [])).
  reflexivity.
Defined.

(** X21.  A [Pot] keeps a dict of its own: after construction from a dict
    the caller holds, [get_player_shares] returns the contents the dict had
    at construction, also after the caller has given the dict other
    contents. *)
Theorem Pot_keeps_its_own_dict
  (h h' : heap) (amount : value) (player_shares : loc) (self : Pot)
  (contents : value) :
  Pot_new h amount player_shares = OK (self, h') ->
  exists d,
    read h player_shares = OK d
    /\ _player_shares self <> player_shares
    /\ returned (get_player_shares h' self) = OK d
    /\ returned (get_player_shares (mutate h' player_shares contents) self) = OK d.
Proof.
  intros H. unfold Pot_new in H.
  bind_step H as d Hd. bind_step H as pot Hpot. bind_step H as copy Hcopy.
  destruct (alloc h copy) as [l h''] eqn:Halloc.
  injection H as <- <-.
  assert (Hl : l = fst (alloc h copy)) by (rewrite Halloc; reflexivity).
  assert (Hh : h'' = snd (alloc h copy)) by (rewrite Halloc; reflexivity).
  assert (Hne : l <> player_shares).
  { intros Heq. apply (alloc_fresh h copy). rewrite <- Hl, Heq.
    eapply read_OK_dom; exact Hd. }
  assert (Hdict : copy = d /\ dict_copy d = OK d).
  { destruct d; try discriminate. simpl in Hcopy. injection Hcopy as <-. auto. }
  destruct Hdict as [-> Hcopy'].
  exists d. split; [exact Hd | ]. split; [exact Hne | ].
  unfold get_player_shares. rewrite !returned_copy. cbn [_player_shares].
  rewrite read_mutate_other by congruence.
  rewrite Hl, Hh, read_alloc. simpl. auto.
Qed.

Lemma Pot_keeps_its_own_dict_witness :
  exists d,
    read shares_heap 0%nat = OK d
    /\ 1%nat <> 0%nat
    /\ returned (get_player_shares (<[1%nat := VDict []]> shares_heap)
                   {| _amount := VInt 5; _player_shares := 1%nat |}) = OK d
    /\ returned (get_player_shares
                   (mutate (<[1%nat := VDict []]> shares_heap) 0%nat
                      (VDict [(VStr "x", VInt 3)]))
                   {| _amount := VInt 5; _player_shares := 1%nat |}) = OK d.
Proof.
  apply (Pot_keeps_its_own_dict shares_heap (<[1%nat := VDict []]> shares_heap)
           (VInt 5) 0%nat {| _amount := VInt 5; _player_shares := 1%nat |}
           (VDict [(VStr "x", VInt 3)])).
  reflexivity.
Defined.

End SharedCopies.

(** ** Which exception *)

(** X22.  The exception of a refused card code tells what was wrong.  For a
    text of ASCII characters, [Card] raises [ValueError] exactly when the
    text has two characters, a valid rank and an unknown suit; every
    exception of [Card] is a [ValueError] or an [AssertionError]; and an
    object that is not a string is refused with [AssertionError].  (On
    ASCII texts a character of the model's string is a character of the
    Python [str]; the rank is checked before the suit.) *)
Theorem Card_init_exceptions :
  (forall rep,
      ascii_text rep ->
      (Card_init (VStr rep) = Raise ValueError
       <-> exists r s, rep = String r (String s EmptyString)
                       /\ In r rank_chars /\ ~ In s suit_chars))
  /\ (forall v e, Card_init v = Raise e -> e = ValueError \/ e = AssertionError)
  /\ (forall v, isinstance v t_str = false -> Card_init v = Raise AssertionError).
Proof.
  assert (Hsuit : forall s,
             (exists suit, Suit_call (VStr (String s EmptyString)) = OK suit
                           /\ In s suit_chars)
             \/ (Suit_call (VStr (String s EmptyString)) = Raise ValueError
                 /\ ~ In s suit_chars)).
  { intros s. destruct (Suit_call (VStr (String s EmptyString))) as [suit | e] eqn:H.
    - left. exists suit. split; [reflexivity | now apply Suit_call_char in H].
    - right. unfold Suit_call in H.
      repeat match type of H with
             | context [String.eqb ?a ?b] =>
                 destruct (String.eqb_spec a b) as [? | ?]; [discriminate H | ]
             end.
      split; [congruence | ].
      unfold suit_chars; simpl. intros [<- | [<- | [<- | [<- | []]]]]; congruence. }
  assert (Hshape : forall rep,
             (exists r s, rep = String r (String s EmptyString))
             \/ Card_init (VStr rep) = Raise AssertionError).
  { intros rep. destruct rep as [ | r [ | s [ | c rest]]]; [right | right | left | right];
      try reflexivity; [eauto | ].
    unfold Card_init. cbn [assert_type andb isinstance assert_ bind len].
    replace (Z.of_nat (String.length (String r (String s (String c rest)))) =? 2)
      with false
      by (symmetry; apply Z.eqb_neq; cbn [String.length]; lia).
    reflexivity. }
  assert (Hrank : forall r s,
             (In r rank_chars
              /\ Card_init (VStr (String r (String s EmptyString)))
                 = (do suit <- Suit_call (VStr (String s EmptyString)); OK (VCard suit)))
             \/ (~ In r rank_chars
                 /\ Card_init (VStr (String r (String s EmptyString)))
                    = Raise AssertionError)).
  { intros r s.
    destruct (str_contains VALID_VALUES (String r EmptyString)) eqn:Hr.
    - left. split; [now apply str_contains_char in Hr | ].
      unfold Card_init, contains; cbn [assert_type andb isinstance assert_ bind len
                                        String.length Z.of_nat getitem String.get].
      simpl Z.eqb. cbn [bind assert_]. rewrite Hr. reflexivity.
    - right. split.
      + intros Hin. apply (proj2 (str_contains_char VALID_VALUES r)) in Hin.
        congruence.
      + unfold Card_init, contains; cbn [assert_type andb isinstance assert_ bind len
                                          String.length Z.of_nat getitem String.get].
        simpl Z.eqb. cbn [bind assert_]. rewrite Hr. reflexivity. }
  split; [ | split].
  - intros rep _. split.
    + intros H. destruct (Hshape rep) as [(r & s & ->) | Ha]; [ | congruence].
      exists r, s. split; [reflexivity | ].
      destruct (Hrank r s) as [[Hr Hc] | [_ Hc]]; [ | congruence].
      split; [exact Hr | ].
      destruct (Hsuit s) as [(suit & Hs & _) | [_ Hn]]; [ | exact Hn].
      rewrite Hc, Hs in H. discriminate.
    + intros (r & s & -> & Hr & Hs).
      destruct (Hrank r s) as [[_ Hc] | [Hn _]]; [ | contradiction].
      destruct (Hsuit s) as [(suit & _ & Hin) | [Hv _]]; [contradiction | ].
      now rewrite Hc, Hv.
  - intros v e H. destruct v;
      try (right; unfold Card_init in H; simpl in H; congruence).
    destruct (Hshape s) as [(r & c & ->) | Ha]; [ | right; congruence].
    destruct (Hrank r c) as [[_ Hc] | [_ Hc]]; [ | right; congruence].
    destruct (Hsuit c) as [(suit & Hs & _) | [Hv _]];
      [rewrite Hc, Hs in H; discriminate | left].
    rewrite Hc, Hv in H. simpl in H. congruence.
  - intros v Hv. unfold Card_init, assert_type. cbn [andb]. now rewrite Hv.
Qed.

Lemma Card_init_exceptions_witness :
  Card_init (VStr "Ax") = Raise ValueError
  /\ (ValueError = ValueError \/ ValueError = AssertionError)
  /\ Card_init (VInt 7) = Raise AssertionError.
Proof.
  split; [ | split].
  - apply (proj1 Card_init_exceptions "Ax").
    { repeat constructor. }
    exists "A"%char, "x"%char. split; [reflexivity | ].
    split; [unfold rank_chars; simpl; tauto | ].
    unfold suit_chars; simpl. intros [H | [H | [H | [H | []]]]]; discriminate H.
  - apply (proj1 (proj2 Card_init_exceptions) (VStr "Ax") ValueError). reflexivity.
  - apply (proj2 (proj2 Card_init_exceptions) (VInt 7)). reflexivity.
Defined.

Lemma assert_int_nonneg_Raise (v : value) :
  ~ nonneg_int v -> assert_int_nonneg v false = Raise AssertionError.
Proof.
  intros Hv. destruct (assert_int_nonneg v false) as [[] | e] eqn:H.
  - exfalso. apply Hv. now apply assert_int_nonneg_OK in H.
  - unfold assert_int_nonneg in H. cbn [andb] in H.
    destruct v as [ |b|n| | | | | | | | | | | | | ]; simpl in H; try congruence.
    + destruct b; discriminate H.
    + unfold ge_int in H. simpl in H. destruct (n ?= 0); simpl in H; congruence.
Qed.

Lemma getitem_str_missing (items : list (value * value)) (k : string) :
  dict_get items k = None -> getitem_str (VDict items) k = Raise KeyError.
Proof. intros H. simpl. now rewrite H. Qed.

Lemma getitem_str_present (items : list (value * value)) (k : string) (x : value) :
  dict_get items k = Some x -> getitem_str (VDict items) k = OK x.
Proof. intros H. simpl. now rewrite H. Qed.

Lemma getitem_str_not_dict (v : value) (k : string) :
  isinstance v t_dict = false -> getitem_str v k = Raise TypeError.
Proof. destruct v; simpl; congruence. Qed.

Section DecoderExceptions.

Variable uuid_hex : string -> option N.

Lemma parse_game_state_OK_GameState (g s : value) :
  parse_game_state uuid_hex g = OK s -> isinstance s t_GameState = true.
Proof.
  unfold parse_game_state. intros H. repeat bind_inv H.
  injection H as <-. reflexivity.
Qed.

(** X23.  The exception of a refused message tells what was wrong, in the
    order in which [parse_game_state_message] reads the payload: [TypeError]
    for a payload that is not an object; [KeyError] for a missing [action],
    then [ValueError] for an [action] that is not the empty string; then
    [KeyError] for a missing [game_state], or the exception of
    [parse_game_state]; then [KeyError] for a missing [actionRequested], and
    last [AssertionError] for an [actionRequested] that is not a boolean. *)
Theorem parse_game_state_message_exceptions :
  (forall json, isinstance json t_dict = false ->
                parse_game_state_message uuid_hex json = Raise TypeError)
  /\ (forall items, dict_get items "action" = None ->
                    parse_game_state_message uuid_hex (VDict items) = Raise KeyError)
  /\ (forall items a,
         dict_get items "action" = Some a -> json_value a -> a <> VStr "" ->
         parse_game_state_message uuid_hex (VDict items) = Raise ValueError)
  /\ (forall items,
         dict_get items "action" = Some (VStr "") ->
         dict_get items "game_state" = None ->
         parse_game_state_message uuid_hex (VDict items) = Raise KeyError)
  /\ (forall items g e,
         dict_get items "action" = Some (VStr "") ->
         dict_get items "game_state" = Some g ->
         parse_game_state uuid_hex g = Raise e ->
         parse_game_state_message uuid_hex (VDict items) = Raise e)
  /\ (forall items g s,
         dict_get items "action" = Some (VStr "") ->
         dict_get items "game_state" = Some g ->
         parse_game_state uuid_hex g = OK s ->
         dict_get items "actionRequested" = None ->
         parse_game_state_message uuid_hex (VDict items) = Raise KeyError)
  /\ (forall items g s r,
         dict_get items "action" = Some (VStr "") ->
         dict_get items "game_state" = Some g ->
         parse_game_state uuid_hex g = OK s ->
         dict_get items "actionRequested" = Some r ->
         isinstance r t_bool = false ->
         parse_game_state_message uuid_hex (VDict items) = Raise AssertionError).
Proof.
  unfold parse_game_state_message.
  split; [ | split; [ | split; [ | split; [ | split; [ | split]]]]].
  - intros json Hj. now rewrite (getitem_str_not_dict json "action" Hj).
  - intros items Ha. now rewrite (getitem_str_missing items "action" Ha).
  - intros items a Ha Hjson Hne. rewrite (getitem_str_present items "action" a Ha).
    cbn [bind].
    assert (Hcall : ActionType_call a = Raise ValueError).
    { destruct Hjson; try reflexivity. simpl.
      destruct (String.eqb_spec s ""); [subst; contradiction | reflexivity]. }
    now rewrite Hcall.
  - intros items Ha Hg. rewrite (getitem_str_present items "action" _ Ha).
    cbn [bind ActionType_call String.eqb].
    now rewrite (getitem_str_missing items "game_state" Hg).
  - intros items g e Ha Hg Hs. rewrite (getitem_str_present items "action" _ Ha).
    cbn [bind ActionType_call String.eqb].
    rewrite (getitem_str_present items "game_state" g Hg). cbn [bind].
    now rewrite Hs.
  - intros items g s Ha Hg Hs Hr. rewrite (getitem_str_present items "action" _ Ha).
    cbn [bind ActionType_call String.eqb].
    rewrite (getitem_str_present items "game_state" g Hg). cbn [bind].
    rewrite Hs. cbn [bind].
    now rewrite (getitem_str_missing items "actionRequested" Hr).
  - intros items g s r Ha Hg Hs Hr Hb.
    rewrite (getitem_str_present items "action" _ Ha).
    cbn [bind ActionType_call String.eqb].
    rewrite (getitem_str_present items "game_state" g Hg). cbn [bind].
    rewrite Hs. cbn [bind].
    rewrite (getitem_str_present items "actionRequested" r Hr). cbn [bind].
    pose proof (parse_game_state_OK_GameState g s Hs) as Hgs.
    destruct s; try discriminate Hgs.
    destruct r; try discriminate Hb; reflexivity.
Qed.

(** X24.  The first checks of [parse_game_state], in order: [TypeError]
    for a game state that is not an object; [KeyError] for a missing
    [players]; [TypeError] for a [players] that cannot be iterated over (a
    number, a boolean, null); and for a game state without players,
    [KeyError] for a missing [pot] and [AssertionError] for a [pot] that is
    not a nonnegative integer. *)
Theorem parse_game_state_exceptions :
  (forall g, isinstance g t_dict = false ->
             parse_game_state uuid_hex g = Raise TypeError)
  /\ (forall items, dict_get items "players" = None ->
                    parse_game_state uuid_hex (VDict items) = Raise KeyError)
  /\ (forall items players,
         dict_get items "players" = Some players -> json_value players ->
         isinstance players t_list = false -> isinstance players t_dict = false ->
         isinstance players t_str = false ->
         parse_game_state uuid_hex (VDict items) = Raise TypeError)
  /\ (forall items players,
         dict_get items "players" = Some players -> iter players = OK [] ->
         dict_get items "pot" = None ->
         parse_game_state uuid_hex (VDict items) = Raise KeyError)
  /\ (forall items players pot,
         dict_get items "players" = Some players -> iter players = OK [] ->
         dict_get items "pot" = Some pot -> ~ nonneg_int pot ->
         parse_game_state uuid_hex (VDict items) = Raise AssertionError).
Proof.
  unfold parse_game_state.
  split; [ | split; [ | split; [ | split]]].
  - intros g Hg. now rewrite (getitem_str_not_dict g "players" Hg).
  - intros items Hp. now rewrite (getitem_str_missing items "players" Hp).
  - intros items players Hp Hjson Hl Hd Hs.
    rewrite (getitem_str_present items "players" players Hp). cbn [bind].
    destruct Hjson; try discriminate; reflexivity.
  - intros items players Hp Hiter Hpot.
    rewrite (getitem_str_present items "players" players Hp). cbn [bind].
    rewrite Hiter. cbn [bind for_each].
    now rewrite (getitem_str_missing items "pot" Hpot).
  - intros items players pot Hp Hiter Hpot Hneg.
    rewrite (getitem_str_present items "players" players Hp). cbn [bind].
    rewrite Hiter. cbn [bind for_each].
    rewrite (getitem_str_present items "pot" pot Hpot). cbn [bind].
    unfold Pot_init. now rewrite (assert_int_nonneg_Raise pot Hneg).
Qed.

End DecoderExceptions.

Lemma parse_game_state_message_exceptions_witness :
  parse_game_state_message uuid_plain_hex (VList []) = Raise TypeError
  /\ parse_game_state_message uuid_plain_hex
       (sdict [("action", VStr "fold"); ("game_state", VNone)]) = Raise ValueError
  /\ parse_game_state_message uuid_plain_hex
       (sdict [("action", VStr "");
               ("game_state", empty_table_game_state some_uuid);
               ("actionRequested", VInt 1)]) = Raise AssertionError.
Proof.
  split; [ | split].
  - apply (proj1 (parse_game_state_message_exceptions uuid_plain_hex)). reflexivity.
  - apply (proj1 (proj2 (proj2 (parse_game_state_message_exceptions uuid_plain_hex)))
             [(VStr "action", VStr "fold"); (VStr "game_state", VNone)] (VStr "fold")).
    + reflexivity.
    + constructor.
    + discriminate.
  - eapply (proj2 (proj2 (proj2 (proj2 (proj2 (proj2
             (parse_game_state_message_exceptions uuid_plain_hex)))))))
      with (g := empty_table_game_state some_uuid) (r := VInt 1); reflexivity.
Defined.

Lemma parse_game_state_exceptions_witness :
  parse_game_state uuid_plain_hex (sdict [("pot", VInt 0)]) = Raise KeyError
  /\ parse_game_state uuid_plain_hex (sdict [("players", VInt 2)]) = Raise TypeError
  /\ parse_game_state uuid_plain_hex
       (sdict [("players", VList []); ("pot", VInt (-5))]) = Raise AssertionError.
Proof.
  split; [ | split].
  - apply (proj1 (proj2 (parse_game_state_exceptions uuid_plain_hex))). reflexivity.
  - apply (proj1 (proj2 (proj2 (parse_game_state_exceptions uuid_plain_hex)))
             [(VStr "players", VInt 2)] (VInt 2)); try reflexivity. constructor.
  - apply (proj2 (proj2 (proj2 (proj2 (parse_game_state_exceptions uuid_plain_hex))))
             [(VStr "players", VList []); (VStr "pot", VInt (-5))]
             (VList []) (VInt (-5))); try reflexivity.
    intros (n & [= <-] & Hn). lia.
Defined.

(** * Revised statements *)

(** ** The decoder: where the per-player fields come from *)

Section PlayerStates.

Variable uuid_hex : string -> option N.



End PlayerStates.


(** ** Pot: what the check of the share mapping reaches *)



